(** * The persistent state model of the autonomous-project coordinator

    A shallow embedding of the SQLite-backed store and of the task
    reconciliation routines found in

    - [autonomous_project.py]     ([ProjectState], [CoordinatorAgent]),
    - [autonomous_project_web.py] ([ProjectState] of the dashboard),
    - [task_sync.py]              ([TaskSync]),
    - [sync_tasks_to_db.py]       ([sync_from_json]),
    - [sync_agent_to_db.py]       ([sync_agent], [update_agent_status]).

    Tables are lists of rows in insertion (rowid) order.  Every column is
    declared TEXT, so a cell is [option string]: [None] is SQL NULL.
    [datetime.now()] reads an explicit clock, [print] appends to an explicit
    output log, and Python exceptions are an explicit outcome. *)

From Stdlib Require Import ZArith String Ascii List Bool Lia.
From stdpp Require Import base option list gmap strings pretty sorting.

Local Open Scope string_scope.
Local Open Scope Z_scope.
Local Open Scope list_scope.

(** ** Python values reaching the store

    The scalar values a decoded JSON record can hold under a key.  Floats and
    nested containers are outside this value type. *)

Inductive pyval :=
| PNone
| PBool (b : bool)
| PInt (z : Z)
| PStr (s : string).

(** Python truthiness, as used by [if x:], [not x] and [a or b]. *)
Definition truthy (v : pyval) : bool :=
  match v with
  | PNone => false
  | PBool b => b
  | PInt z => negb (Z.eqb z 0)
  | PStr s => negb (String.eqb s "")
  end.

(** [a or b] *)
Definition py_or (a b : pyval) : pyval := if truthy a then a else b.

(** [str(v)] *)
Definition py_str (v : pyval) : string :=
  match v with
  | PNone => "None"
  | PBool true => "True"
  | PBool false => "False"
  | PInt z => pretty z
  | PStr s => s
  end.

(** [v == s] for a string literal [s]: only an equal string is equal. *)
Definition py_eq_str (v : pyval) (s : string) : bool :=
  match v with
  | PStr t => String.eqb t s
  | _ => false
  end.

(** [d.get(k)] and [d.get(k, default)] on a decoded JSON object. *)
Definition dict_get (d : gmap string pyval) (k : string) : pyval :=
  default PNone (d !! k).

Definition dict_get_default (d : gmap string pyval) (k : string) (dflt : pyval) : pyval :=
  default dflt (d !! k).

(** ** SQLite cells and parameter binding *)

Abbreviation sqltext := (option string).

Definition int64_min : Z := - 2 ^ 63.
Definition int64_max : Z := 2 ^ 63 - 1.

(** Binding a Python value to a [?] placeholder whose column has TEXT
    affinity.  [None] means the driver raises ([OverflowError] for an integer
    outside the signed 64-bit range); booleans are bound as the integers 1
    and 0; integers are stored as their decimal text. *)
Definition sqlite_bind (v : pyval) : option sqltext :=
  match v with
  | PNone => Some None
  | PBool b => Some (Some (if b then "1" else "0"))
  | PInt z => if Z.leb int64_min z && Z.leb z int64_max then Some (Some (pretty z)) else None
  | PStr s => Some (Some s)
  end.

(** SQL [col = 'literal']: NULL never compares equal. *)
Definition sql_eq (c : sqltext) (s : string) : bool :=
  match c with
  | Some t => String.eqb t s
  | None => false
  end.

(** ** The four tables *)

Module Sessions.
Record row := mk {
    session_id : string;          (* TEXT PRIMARY KEY *)
    created_at : string;          (* TEXT NOT NULL *)
    project_goal : string;        (* TEXT NOT NULL *)
    current_phase : sqltext       (* TEXT DEFAULT 'initialization' *)
}.
End Sessions.

Module Agents.
Record row := mk {
    id : Z;                       (* INTEGER PRIMARY KEY AUTOINCREMENT *)
    session_id : string;          (* TEXT NOT NULL *)
    role : string;                (* TEXT NOT NULL *)
    agent_id : sqltext;           (* TEXT *)
    started_at : string;          (* TEXT NOT NULL *)
    status : sqltext              (* TEXT DEFAULT 'active' *)
}.
End Agents.

Module Tasks.
Record row := mk {
    id : Z;                       (* INTEGER PRIMARY KEY AUTOINCREMENT *)
    session_id : string;          (* TEXT NOT NULL *)
    task_id : string;             (* TEXT NOT NULL *)
    agent_role : sqltext;         (* TEXT *)
    description : sqltext;        (* TEXT *)
    status : sqltext;             (* TEXT DEFAULT 'pending' *)
    created_at : string;          (* TEXT NOT NULL *)
    completed_at : sqltext        (* TEXT *)
}.
End Tasks.

Module Reports.
Record row := mk {
    id : Z;                       (* INTEGER PRIMARY KEY AUTOINCREMENT *)
    session_id : string;          (* TEXT NOT NULL *)
    timestamp : string;           (* TEXT NOT NULL *)
    phase : sqltext;              (* TEXT *)
    completed_tasks : option Z;   (* INTEGER *)
    data : sqltext                (* TEXT *)
}.
End Reports.

(** The database file.  The [*_seq] fields are the AUTOINCREMENT counters
    (table [sqlite_sequence]): the largest id ever handed out. *)
Record store := mkStore {
  sessions : list Sessions.row;
  agents : list Agents.row;
  agents_seq : Z;
  tasks : list Tasks.row;
  tasks_seq : Z;
  reports : list Reports.row;
  reports_seq : Z
}.

(** What [_init_database] creates on a fresh file. *)
Definition empty_store : store :=
  mkStore [] [] 0 [] 0 [] 0.

(** [_init_database]: CREATE TABLE IF NOT EXISTS keeps an existing file. *)
Definition _init_database (file : option store) : store :=
  default empty_store file.

Definition with_tasks (st : store) (l : list Tasks.row) (seq : Z) : store :=
  mkStore (sessions st) (agents st) (agents_seq st) l seq (reports st) (reports_seq st).

Definition with_agents (st : store) (l : list Agents.row) (seq : Z) : store :=
  mkStore (sessions st) l seq (tasks st) (tasks_seq st) (reports st) (reports_seq st).

Definition with_sessions (st : store) (l : list Sessions.row) : store :=
  mkStore l (agents st) (agents_seq st) (tasks st) (tasks_seq st) (reports st) (reports_seq st).

Definition with_reports (st : store) (l : list Reports.row) (seq : Z) : store :=
  mkStore (sessions st) (agents st) (agents_seq st) (tasks st) (tasks_seq st) l seq.

(** ** SQL statements

    Each definition below is one statement of the source, as a function on the
    store.  A statement either runs completely or, when a parameter cannot be
    bound, not at all. *)

(** [SELECT session_id FROM sessions ORDER BY created_at DESC LIMIT 1]:
    the row with the greatest [created_at] in the byte order of TEXT; among
    equal timestamps the earliest inserted row is taken. *)
Fixpoint latest_session_row (l : list Sessions.row) : option Sessions.row :=
  match l with
  | [] => None
  | r :: l' =>
      match latest_session_row l' with
      | None => Some r
      | Some r' =>
          if String.ltb (Sessions.created_at r) (Sessions.created_at r')
          then Some r' else Some r
      end
  end.

Definition select_latest_session (st : store) : option string :=
  Sessions.session_id <$> latest_session_row (sessions st).

(** [INSERT INTO sessions (session_id, created_at, project_goal, current_phase)].
    The primary key rejects a second row with the same [session_id]. *)
Definition session_exists (st : store) (sid : string) : bool :=
  existsb (fun r => String.eqb (Sessions.session_id r) sid) (sessions st).

Definition insert_session (sid created goal : string) (phase : sqltext)
    (st : store) : option store :=
  if session_exists st sid then None
  else Some (with_sessions st (sessions st ++ [Sessions.mk sid created goal phase])).

(** [INSERT INTO agents (session_id, role, agent_id, started_at, status)] *)
Definition insert_agent (sid role : string) (agent_id : sqltext) (started : string)
    (status : sqltext) (st : store) : store :=
  let i := agents_seq st + 1 in
  with_agents st (agents st ++ [Agents.mk i sid role agent_id started status]) i.

(** [INSERT INTO tasks (session_id, task_id, agent_role, description, status,
    created_at)]; [completed_at] is left NULL. *)
Definition insert_task (sid tid : string) (agent_role description status : sqltext)
    (created : string) (st : store) : store :=
  let i := tasks_seq st + 1 in
  with_tasks st
    (tasks st ++ [Tasks.mk i sid tid agent_role description status created None]) i.

(** The columns an UPDATE of [tasks] assigns. *)
Inductive column := ColStatus | ColCompletedAt | ColAgentRole | ColDescription.

Definition set_column (c : column) (v : sqltext) (r : Tasks.row) : Tasks.row :=
  match c with
  | ColStatus =>
      Tasks.mk (Tasks.id r) (Tasks.session_id r) (Tasks.task_id r) (Tasks.agent_role r)
        (Tasks.description r) v (Tasks.created_at r) (Tasks.completed_at r)
  | ColCompletedAt =>
      Tasks.mk (Tasks.id r) (Tasks.session_id r) (Tasks.task_id r) (Tasks.agent_role r)
        (Tasks.description r) (Tasks.status r) (Tasks.created_at r) v
  | ColAgentRole =>
      Tasks.mk (Tasks.id r) (Tasks.session_id r) (Tasks.task_id r) v
        (Tasks.description r) (Tasks.status r) (Tasks.created_at r) (Tasks.completed_at r)
  | ColDescription =>
      Tasks.mk (Tasks.id r) (Tasks.session_id r) (Tasks.task_id r) (Tasks.agent_role r)
        v (Tasks.status r) (Tasks.created_at r) (Tasks.completed_at r)
  end.

(** The SET clause, applied left to right to one row. *)
Definition apply_sets (sets : list (column * sqltext)) (r : Tasks.row) : Tasks.row :=
  fold_left (fun acc cv => set_column cv.1 cv.2 acc) sets r.

(** Binding the parameter list of the statement: all or nothing. *)
Fixpoint bind_params (ps : list (column * pyval)) : option (list (column * sqltext)) :=
  match ps with
  | [] => Some []
  | (c, v) :: ps' =>
      match sqlite_bind v, bind_params ps' with
      | Some b, Some bs => Some ((c, b) :: bs)
      | _, _ => None
      end
  end.

(** [UPDATE tasks SET ... WHERE <cond>]; also gives [cursor.rowcount]. *)
Definition update_tasks (sets : list (column * sqltext)) (cond : Tasks.row -> bool)
    (st : store) : store * nat :=
  (with_tasks st (map (fun r => if cond r then apply_sets sets r else r) (tasks st))
     (tasks_seq st),
   length (List.filter cond (tasks st))).

(** [DELETE FROM tasks WHERE task_id = ?] *)
Definition delete_tasks (tid : string) (st : store) : store :=
  with_tasks st (List.filter (fun r => negb (String.eqb (Tasks.task_id r) tid)) (tasks st))
    (tasks_seq st).

(** [UPDATE agents SET status = ? WHERE agent_id = ?] with its rowcount. *)
Definition set_agent_status (v : sqltext) (r : Agents.row) : Agents.row :=
  Agents.mk (Agents.id r) (Agents.session_id r) (Agents.role r) (Agents.agent_id r)
    (Agents.started_at r) v.

Definition update_agents (status agent_id : string) (st : store) : store * nat :=
  (with_agents st
     (map (fun r => if sql_eq (Agents.agent_id r) agent_id
                    then set_agent_status (Some status) r else r) (agents st))
     (agents_seq st),
   length (List.filter (fun r => sql_eq (Agents.agent_id r) agent_id) (agents st))).

(** [SELECT id FROM tasks WHERE task_id = ?] followed by [fetchone()]. *)
Definition select_task_id (tid : string) (st : store) : option Z :=
  Tasks.id <$> head (List.filter (fun r => String.eqb (Tasks.task_id r) tid) (tasks st)).

(** [SELECT COUNT( * ) FROM tasks WHERE session_id = ? AND status = 'completed'] *)
Definition count_completed (sid : string) (st : store) : Z :=
  fold_left
    (fun n r =>
       if String.eqb (Tasks.session_id r) sid && sql_eq (Tasks.status r) "completed"
       then n + 1 else n)
    (tasks st) 0.

(** [UPDATE sessions SET current_phase = ? WHERE session_id = ?] *)
Definition set_current_phase (phase : sqltext) (r : Sessions.row) : Sessions.row :=
  Sessions.mk (Sessions.session_id r) (Sessions.created_at r) (Sessions.project_goal r) phase.

Definition update_session_phase (phase : sqltext) (sid : string) (st : store) : store :=
  with_sessions st
    (map (fun r => if String.eqb (Sessions.session_id r) sid
                   then set_current_phase phase r else r)
       (sessions st)).

(** [SELECT project_goal, current_phase, created_at FROM sessions
    WHERE session_id = ?] followed by [fetchone()]. *)
Definition select_session (sid : string) (st : store) : option Sessions.row :=
  head (List.filter (fun r => String.eqb (Sessions.session_id r) sid) (sessions st)).

(** [SELECT DISTINCT role FROM agents WHERE session_id = ? AND status = 'active'].
    The order in which SQLite gives distinct values is not specified;
    [remove_dups] keeps one occurrence of each. *)
Definition select_active_roles (sid : string) (st : store) : list string :=
  remove_dups
    (Agents.role
       <$> List.filter
             (fun r => String.eqb (Agents.session_id r) sid
                       && sql_eq (Agents.status r) "active")
             (agents st)).

(** [ORDER BY created_at DESC] and [ORDER BY started_at DESC]: the byte order
    of TEXT, greatest first.  Rows with equal keys come in an order SQLite
    does not specify; [merge_sort] fixes one. *)
Definition sessions_desc (r1 r2 : Sessions.row) : Prop :=
  String.le (Sessions.created_at r2) (Sessions.created_at r1).

Definition tasks_desc (r1 r2 : Tasks.row) : Prop :=
  String.le (Tasks.created_at r2) (Tasks.created_at r1).

Definition agents_desc (r1 r2 : Agents.row) : Prop :=
  String.le (Agents.started_at r2) (Agents.started_at r1).

#[global] Instance sessions_desc_dec : RelDecision sessions_desc.
Proof. intros r1 r2. unfold sessions_desc. apply _. Defined.

#[global] Instance tasks_desc_dec : RelDecision tasks_desc.
Proof. intros r1 r2. unfold tasks_desc. apply _. Defined.

#[global] Instance agents_desc_dec : RelDecision agents_desc.
Proof. intros r1 r2. unfold agents_desc. apply _. Defined.

(** [SELECT ... FROM sessions ORDER BY created_at DESC] *)
Definition select_sessions (st : store) : list Sessions.row :=
  merge_sort sessions_desc (sessions st).

(** [SELECT ... FROM tasks [WHERE session_id = ?] ORDER BY created_at DESC];
    [None] is the statement without the WHERE clause. *)
Definition select_tasks (sid : option sqltext) (st : store) : list Tasks.row :=
  merge_sort tasks_desc
    (match sid with
     | None => tasks st
     | Some c => List.filter (fun r => sql_eq c (Tasks.session_id r)) (tasks st)
     end).

(** [SELECT ... FROM agents [WHERE session_id = ?] ORDER BY started_at DESC] *)
Definition select_agents (sid : option sqltext) (st : store) : list Agents.row :=
  merge_sort agents_desc
    (match sid with
     | None => agents st
     | Some c => List.filter (fun r => sql_eq c (Agents.session_id r)) (agents st)
     end).

(** ** Effects: clock, output and exceptions *)

(** A reading of [datetime.now()], through the two renderings the source
    takes of it: [.isoformat()] and [.strftime("%Y%m%d_%H%M%S")]. *)
Record datetime := mkDatetime {
  isoformat : string;
  strftime : string
}.

(** The lines the modelled functions print, one constructor per [print]
    call site (the decorative prefix of each line is left out). *)
Inductive message :=
| MsgSyncedTask (task_id : string)                 (* Synced task to SQLite: <id> *)
| MsgSyncedUpdate (task_id : string) (what : string) (* Synced task update to SQLite: <id> -> <status or 'updated'> *)
| MsgDeletedTask (task_id : string)                (* Deleted task from SQLite: <id> *)
| MsgExpectedArray                                 (* Expected array of tasks, got <type> *)
| MsgSyncedNew (n : nat)                           (* Synced <n> new tasks to SQLite database *)
| MsgSyncedTotal (n : nat)                         (* Synced <n> tasks to SQLite database, and two more lines *)
| MsgJSONError                                     (* JSON parsing error ... *)
| MsgError                                         (* Error: <e> / Error syncing tasks: <e> *)
| MsgDatabaseNotFound                              (* Error: Database not found at <path> *)
| MsgCreatedSession (session_id : string)          (* Created new session: <id> *)
| MsgSyncedAgent (role agent_id status : string)   (* Synced agent to SQLite: <role> (<id>) [<status>] *)
| MsgAgentUpdated (agent_id status : string)       (* Updated agent status: <id> -> <status> *)
| MsgAgentNotFound (agent_id : string).            (* Agent not found: <id> *)

Inductive exn :=
| AttributeError        (* [.get] on a value that is not a dict *)
| OverflowError         (* an integer parameter that does not fit SQLite *)
| IntegrityError.       (* a PRIMARY KEY violation *)

(** The state a call runs in: the database, the clock ([clock n] is the
    [n]-th reading of [datetime.now()], [reads] counts the readings made)
    and the lines printed so far. *)
Record world := mkWorld {
  db : store;
  clock : nat -> datetime;
  reads : nat;
  out : list message
}.

Inductive outcome (A : Type) :=
| Ok (a : A)
| Raise (e : exn).
Arguments Ok {A} a.
Arguments Raise {A} e.

Definition M (A : Type) : Type := world -> outcome A * world.

#[global] Instance M_ret : MRet M := fun A a w => (Ok a, w).

#[global] Instance M_bind : MBind M := fun A B k m w =>
  match m w with
  | (Ok a, w') => k a w'
  | (Raise e, w') => (Raise e, w')
  end.

Definition raise {A} (e : exn) : M A := fun w => (Raise e, w).

(** [datetime.now()] *)
Definition now : M datetime :=
  fun w => (Ok (clock w (reads w)), mkWorld (db w) (clock w) (S (reads w)) (out w)).

(** [print(...)] *)
Definition print (m : message) : M unit :=
  fun w => (Ok tt, mkWorld (db w) (clock w) (reads w) (out w ++ [m])).

(** A query: reads the database. *)
Definition query {A} (q : store -> A) : M A :=
  fun w => (Ok (q (db w)), w).

(** A committed statement: replaces the database. *)
Definition execute (f : store -> store) : M unit :=
  fun w => (Ok tt, mkWorld (f (db w)) (clock w) (reads w) (out w)).

(** A statement that a constraint can reject: nothing is written then. *)
Definition execute_checked (f : store -> option store) (e : exn) : M unit :=
  fun w =>
    match f (db w) with
    | Some st => (Ok tt, mkWorld st (clock w) (reads w) (out w))
    | None => (Raise e, w)
    end.

(** [try: body  except Exception: handler] *)
Definition try_except {A} (body : M A) (handler : exn -> M A) : M A :=
  fun w =>
    match body w with
    | (Ok a, w') => (Ok a, w')
    | (Raise e, w') => handler e w'
    end.

(** A value obtained from a Python parameter that has to be bound. *)
Definition bound (v : pyval) : M sqltext :=
  match sqlite_bind v with
  | Some c => mret c
  | None => raise OverflowError
  end.

(** A bound value for a NOT NULL column. *)
Definition bound_not_null (v : pyval) : M string :=
  c ← bound v;
  match c with
  | Some t => mret t
  | None => raise IntegrityError
  end.

(** ** [task_sync.py]: class [TaskSync] *)

Module TaskSync.

(** [create_task(self, task_id, description, agent_role=None, session_id=None)] *)
Definition create_task (task_id : string) (description agent_role session_id : pyval)
    : M unit :=
  sid ← (if truthy session_id then mret session_id
         else
           result ← query select_latest_session;
           match result with
           | Some s => mret (PStr s)
           | None => d ← now; mret (PStr (strftime d))
           end);
  created ← now;
  c_sid ← bound_not_null sid;
  c_role ← bound agent_role;
  c_descr ← bound description;
  execute (insert_task c_sid task_id c_role c_descr (Some "pending") (isoformat created));;
  print (MsgSyncedTask task_id).

(** The [updates] and [params] lists that [update_task] builds, paired up. *)
Definition build_updates (status agent_role description : pyval)
    : M (list (column * pyval)) :=
  u_status ← (if truthy status then
                if py_eq_str status "completed" then
                  d ← now;
                  mret [(ColStatus, status); (ColCompletedAt, PStr (isoformat d))]
                else mret [(ColStatus, status)]
              else mret []);
  mret (u_status
        ++ (if truthy agent_role then [(ColAgentRole, agent_role)] else [])
        ++ (if truthy description then [(ColDescription, description)] else [])).

(** [UPDATE tasks SET <updates> WHERE task_id = ?] with the parameters bound. *)
Definition run_update (task_id : string) (updates : list (column * pyval)) : M unit :=
  match bind_params updates with
  | Some sets =>
      execute (fun st =>
        (update_tasks sets (fun r => String.eqb (Tasks.task_id r) task_id) st).1)
  | None => raise OverflowError
  end.

(** [update_task(self, task_id, status=None, agent_role=None, description=None)] *)
Definition update_task (task_id : string) (status agent_role description : pyval)
    : M unit :=
  updates ← build_updates status agent_role description;
  match updates with
  | [] => mret tt
  | _ :: _ =>
      run_update task_id updates;;
      print (MsgSyncedUpdate task_id (if truthy status then py_str status else "updated"))
  end.

(** [delete_task(self, task_id)] *)
Definition delete_task (task_id : string) : M unit :=
  execute (delete_tasks task_id);;
  print (MsgDeletedTask task_id).

(** [get_session_id(self)] *)
Definition get_session_id : M (option string) :=
  query select_latest_session.

End TaskSync.

(** ** [autonomous_project.py]: class [ProjectState]

    [self.session_id] is the first argument of every method. *)

Module ProjectState.

(** [create_session(self, project_goal)]; [current_phase] takes its default. *)
Definition create_session (self_session_id : string) (project_goal : string) : M unit :=
  d ← now;
  execute_checked
    (insert_session self_session_id (isoformat d) project_goal (Some "initialization"))
    IntegrityError.

(** [add_agent(self, role, agent_id=None)]; [status] takes its default. *)
Definition add_agent (self_session_id : string) (role : string) (agent_id : pyval)
    : M unit :=
  d ← now;
  c_agent ← bound agent_id;
  execute (insert_agent self_session_id role c_agent (isoformat d) (Some "active")).

(** [add_task(self, task_id, agent_role=None, description=None)];
    [status] takes its default. *)
Definition add_task (self_session_id : string) (task_id : string)
    (agent_role description : pyval) : M unit :=
  d ← now;
  c_role ← bound agent_role;
  c_descr ← bound description;
  execute (insert_task self_session_id task_id c_role c_descr (Some "pending") (isoformat d)).

(** [complete_task(self, task_id)] *)
Definition complete_task (self_session_id : string) (task_id : string) : M unit :=
  d ← now;
  execute (fun st =>
    (update_tasks [(ColStatus, Some "completed"); (ColCompletedAt, Some (isoformat d))]
       (fun r => String.eqb (Tasks.task_id r) task_id
                 && String.eqb (Tasks.session_id r) self_session_id) st).1).

(** [get_completed_tasks_count(self)] *)
Definition get_completed_tasks_count (self_session_id : string) : M Z :=
  query (count_completed self_session_id).

(** A TEXT cell as Python reads it: [None] or a [str]. *)
Definition text_value (c : sqltext) : pyval :=
  match c with
  | Some s => PStr s
  | None => PNone
  end.

(** [set_phase(self, phase)] *)
Definition set_phase (self_session_id : string) (phase : string) : M unit :=
  execute (update_session_phase (Some phase) self_session_id).

(** [get_session_info(self)]: the dict of the first matching row, or [{}]. *)
Definition get_session_info (self_session_id : string) : M (gmap string pyval) :=
  row ← query (select_session self_session_id);
  match row with
  | Some r =>
      mret {[ "project_goal" := PStr (Sessions.project_goal r);
              "current_phase" := text_value (Sessions.current_phase r);
              "created_at" := PStr (Sessions.created_at r) ]}
  | None => mret ∅
  end.

(** [get_active_agents(self)] *)
Definition get_active_agents (self_session_id : string) : M (list string) :=
  query (select_active_roles self_session_id).

End ProjectState.

(** ** [autonomous_project_web.py]: class [ProjectState] of the dashboard *)

Module WebProjectState.

(** [add_task(self, task_id, agent_role=None, description=None, session_id=None)] *)
Definition add_task (self_session_id : string) (task_id : string)
    (agent_role description session_id : pyval) : M unit :=
  let sid := py_or session_id (PStr self_session_id) in
  d ← now;
  c_sid ← bound_not_null sid;
  c_role ← bound agent_role;
  c_descr ← bound description;
  execute (insert_task c_sid task_id c_role c_descr (Some "pending") (isoformat d)).

(** [update_task(self, task_id, status=None, agent_role=None, description=None)] *)
Definition update_task (task_id : string) (status agent_role description : pyval)
    : M unit :=
  updates ← TaskSync.build_updates status agent_role description;
  match updates with
  | [] => mret tt
  | _ :: _ => TaskSync.run_update task_id updates
  end.

(** [delete_task(self, task_id)] *)
Definition delete_task (task_id : string) : M unit :=
  execute (delete_tasks task_id).

(** [get_all_sessions(self)]; each dict of the result holds the four
    columns of its row, so the result is given as the rows. *)
Definition get_all_sessions : M (list Sessions.row) :=
  query select_sessions.

(** [get_all_tasks(self, session_id=None)] *)
Definition get_all_tasks (session_id : pyval) : M (list Tasks.row) :=
  if truthy session_id then
    c ← bound session_id;
    query (select_tasks (Some c))
  else query (select_tasks None).

(** [get_all_agents(self, session_id=None)] *)
Definition get_all_agents (session_id : pyval) : M (list Agents.row) :=
  if truthy session_id then
    c ← bound session_id;
    query (select_agents (Some c))
  else query (select_agents None).

End WebProjectState.

(** ** The reconciliation input

    [json.loads(tasks_json)] either fails, or gives a value that is not a
    list, or a list whose elements are JSON objects or something else. *)

Inductive item :=
| JObject (d : gmap string pyval)
| JOther.

Inductive payload :=
| Unparseable
| NotList
| JList (tasks : list item).

(** ** [autonomous_project.py]: [CoordinatorAgent.sync_tasks_from_json] *)

Module CoordinatorAgent.

(** The body of the [for task in tasks] loop on a dict; the result is the
    increment of [synced_count]. *)
Definition sync_task (task : gmap string pyval) : M nat :=
  let task_id := py_or (dict_get task "id") (dict_get task "task_id") in
  let subject := dict_get_default task "subject" (PStr "") in
  let description := dict_get_default task "description" subject in
  let status := dict_get_default task "status" (PStr "pending") in
  let owner := dict_get task "owner" in
  if truthy task_id then
    exists_ ← query (select_task_id (py_str task_id));
    created ← match exists_ with
              | None =>
                  TaskSync.create_task (py_str task_id) description owner PNone;;
                  mret 1%nat
              | Some _ => mret 0%nat
              end;
    (if negb (py_eq_str status "pending")
     then TaskSync.update_task (py_str task_id) status PNone PNone
     else mret tt);;
    mret created
  else mret 0%nat.

Definition sync_item (t : item) : M nat :=
  match t with
  | JObject task => sync_task task
  | JOther => raise AttributeError
  end.

(** The loop; the result is the final [synced_count]. *)
Fixpoint sync_loop (tasks : list item) (synced_count : nat) : M nat :=
  match tasks with
  | [] => mret synced_count
  | t :: rest =>
      n ← sync_item t;
      sync_loop rest (synced_count + n)%nat
  end.

(** [sync_tasks_from_json(self, tasks_json)]; [task_sync] tells whether
    [self.task_sync] is set. *)
Definition sync_tasks_from_json (task_sync : bool) (tasks_json : payload) : M unit :=
  if negb task_sync then mret tt
  else
    match tasks_json with
    | Unparseable => print MsgJSONError
    | NotList => print MsgExpectedArray
    | JList tasks =>
        try_except
          (synced_count ← sync_loop tasks 0%nat;
           if (0 <? synced_count)%nat then print (MsgSyncedNew synced_count) else mret tt)
          (fun _ => print MsgError)
    end.

End CoordinatorAgent.

(** ** [sync_tasks_to_db.py]: [sync_from_json] *)

Module SyncTasksToDb.

Definition sync_task (task : gmap string pyval) : M nat :=
  let task_id := py_or (dict_get task "id") (dict_get task "task_id") in
  let description :=
    py_or (dict_get task "description")
          (dict_get_default task "subject" (PStr "No description")) in
  let status := dict_get_default task "status" (PStr "pending") in
  let agent_role := py_or (dict_get task "agent_role") (dict_get task "owner") in
  if truthy task_id then
    TaskSync.create_task (py_str task_id) description agent_role PNone;;
    (if negb (py_eq_str status "pending")
     then TaskSync.update_task (py_str task_id) status PNone PNone
     else mret tt);;
    mret 1%nat
  else mret 0%nat.

Definition sync_item (t : item) : M nat :=
  match t with
  | JObject task => sync_task task
  | JOther => raise AttributeError
  end.

Fixpoint sync_loop (tasks : list item) (synced_count : nat) : M nat :=
  match tasks with
  | [] => mret synced_count
  | t :: rest =>
      n ← sync_item t;
      sync_loop rest (synced_count + n)%nat
  end.

(** [sync_from_json(project_dir, tasks_json)] *)
Definition sync_from_json (tasks_json : payload) : M unit :=
  match tasks_json with
  | Unparseable => print MsgJSONError
  | NotList => print MsgExpectedArray
  | JList tasks =>
      try_except
        (synced_count ← sync_loop tasks 0%nat;
         print (MsgSyncedTotal synced_count))
        (fun _ => print MsgError)
  end.

End SyncTasksToDb.

(** ** [sync_agent_to_db.py]

    [db_exists] is the answer of [db_path.exists()]. *)

Module SyncAgentToDb.

(** [sync_agent(project_dir, role, agent_id, session_id=None, status="active")] *)
Definition sync_agent (db_exists : bool) (role agent_id : string) (session_id : pyval)
    (status : string) : M bool :=
  if negb db_exists then print MsgDatabaseNotFound;; mret false
  else
    sid ← (if truthy session_id then mret session_id
           else
             result ← query select_latest_session;
             match result with
             | Some s => mret (PStr s)
             | None =>
                 d ← now;
                 created ← now;
                 execute_checked
                   (insert_session (strftime d) (isoformat created) "Autonomous Project"
                      (Some "implementation"))
                   IntegrityError;;
                 print (MsgCreatedSession (strftime d));;
                 mret (PStr (strftime d))
             end);
    started ← now;
    c_sid ← bound_not_null sid;
    execute (insert_agent c_sid role (Some agent_id) (isoformat started) (Some status));;
    print (MsgSyncedAgent role agent_id status);;
    mret true.

(** [update_agent_status(project_dir, agent_id, status)]: the UPDATE is
    committed only when [cursor.rowcount > 0]. *)
Definition update_agent_status (db_exists : bool) (agent_id status : string) : M bool :=
  if negb db_exists then print MsgDatabaseNotFound;; mret false
  else
    pending ← query (update_agents status agent_id);
    (if (0 <? pending.2)%nat
     then execute (fun _ => pending.1);; print (MsgAgentUpdated agent_id status)
     else print (MsgAgentNotFound agent_id));;
    mret true.

End SyncAgentToDb.

(** ** Running a call *)

Definition initial_world (st : store) (clk : nat -> datetime) : world :=
  mkWorld st clk 0 [].

(** The database a call leaves behind. *)
Definition db_after {A} (m : M A) (w : world) : store := db (m w).2.

(** ** Definitions the statements are written with *)

(** The [updates]/[params] lists of [update_task] as a function of its
    arguments and of the clock reading it makes. *)
Definition updates_of (status agent_role description : pyval) (d : datetime)
    : list (column * pyval) :=
  (if truthy status then
     if py_eq_str status "completed"
     then [(ColStatus, status); (ColCompletedAt, PStr (isoformat d))]
     else [(ColStatus, status)]
   else [])
  ++ (if truthy agent_role then [(ColAgentRole, agent_role)] else [])
  ++ (if truthy description then [(ColDescription, description)] else []).

Definition effective_sets (status agent_role description : pyval) (d : datetime)
    : list (column * sqltext) :=
  default [] (bind_params (updates_of status agent_role description d)).

Definition matches_task_id (tid : string) (r : Tasks.row) : bool :=
  String.eqb (Tasks.task_id r) tid.

(** The row an UPDATE built by [update_task] leaves in place of [r]: each
    truthy argument overwrites its cell, a falsy one keeps it, and a
    parameter that cannot be bound cancels the whole statement. *)
Definition bindable (v : pyval) : bool :=
  match sqlite_bind v with Some _ => true | None => false end.

Definition params_ok (status agent_role description : pyval) : bool :=
  (negb (truthy status) || bindable status)
  && (negb (truthy agent_role) || bindable agent_role)
  && (negb (truthy description) || bindable description).

Definition new_cell (v : pyval) (old : sqltext) : sqltext :=
  if truthy v then default old (sqlite_bind v) else old.

Definition updated_row (status agent_role description : pyval) (d : datetime)
    (r : Tasks.row) : Tasks.row :=
  if params_ok status agent_role description then
    Tasks.mk (Tasks.id r) (Tasks.session_id r) (Tasks.task_id r)
      (new_cell agent_role (Tasks.agent_role r))
      (new_cell description (Tasks.description r))
      (new_cell status (Tasks.status r))
      (Tasks.created_at r)
      (if truthy status && py_eq_str status "completed"
       then Some (isoformat d) else Tasks.completed_at r)
  else r.




Definition sample_clock (n : nat) : datetime :=
  mkDatetime ("2026-02-13T12:00:0" +:+ pretty n) ("20260213_12000" +:+ pretty n).

Definition sample_task : Tasks.row :=
  Tasks.mk 1 "20260213_115900" "task-001" (Some "builder") (Some "Build feature X")
    (Some "in_progress") "2026-02-13T11:59:30" None.

Definition sample_store : store :=
  mkStore [Sessions.mk "20260213_115900" "2026-02-13T11:59:00" "Build a todo app"
             (Some "implementation")]
    [] 0 [sample_task] 1 [] 0.


Definition two_session_store : store :=
  mkStore
    [Sessions.mk "20260212_090000" "2026-02-12T09:00:00" "Build a todo app"
       (Some "implementation");
     Sessions.mk "20260213_090000" "2026-02-13T09:00:00" "Build a blog"
       (Some "planning")]
    [] 0
    [Tasks.mk 1 "20260212_090000" "1" (Some "builder") (Some "scaffold project")
       (Some "pending") "2026-02-12T09:05:00" None;
     Tasks.mk 2 "20260213_090000" "1" (Some "planner") (Some "draft outline")
       (Some "pending") "2026-02-13T09:05:00" None]
    2 [] 0.

(** An argument annotated [Optional[str]]. *)
Definition py_opt (o : option string) : pyval :=
  match o with
  | Some s => PStr s
  | None => PNone
  end.

(** The operations a caller can interleave on the tasks table. *)
Inductive op :=
| AddTask (self_session_id task_id : string) (agent_role description : pyval)
| WebAddTask (self_session_id task_id : string) (agent_role description session_id : pyval)
| CreateTask (task_id : string) (description agent_role session_id : pyval)
| UpdateTask (task_id : string) (status agent_role description : pyval)
| WebUpdateTask (task_id : string) (status agent_role description : pyval)
| CompleteTask (self_session_id task_id : string)
| DeleteTask (task_id : string)
| WebDeleteTask (task_id : string).

Definition run_op (o : op) : M unit :=
  match o with
  | AddTask sid tid role descr => ProjectState.add_task sid tid role descr
  | WebAddTask sid tid role descr s => WebProjectState.add_task sid tid role descr s
  | CreateTask tid descr role s => TaskSync.create_task tid descr role s
  | UpdateTask tid status role descr => TaskSync.update_task tid status role descr
  | WebUpdateTask tid status role descr => WebProjectState.update_task tid status role descr
  | CompleteTask sid tid => ProjectState.complete_task sid tid
  | DeleteTask tid => TaskSync.delete_task tid
  | WebDeleteTask tid => WebProjectState.delete_task tid
  end.

(** Running the calls one after the other; a call that raises has written
    nothing and the next one runs on what is there. *)
Fixpoint run_ops (ops : list op) (w : world) : world :=
  match ops with
  | [] => w
  | o :: rest => run_ops rest (run_op o w).2
  end.

(** In the words of the specification: the number of Task rows whose
    session is [sid] and whose status equals 'completed'. *)
Definition completed_rows (sid : string) (st : store) : nat :=
  length (filter (fun r => Tasks.session_id r = sid /\ Tasks.status r = Some "completed")
            (tasks st)).

(** Every Agent, Task and Report row references a row of Session. *)
Definition referential_integrity (st : store) : Prop :=
  (forall r, r ∈ agents st -> session_exists st (Agents.session_id r) = true)
  /\ (forall r, r ∈ tasks st -> session_exists st (Tasks.session_id r) = true)
  /\ (forall r, r ∈ reports st -> session_exists st (Reports.session_id r) = true).

(** C8 as stated: a record carrying nothing under the keys 'id' and
    'taskId'. *)
Definition no_identifier_as_stated (task : gmap string pyval) : Prop :=
  task !! "id" = None /\ task !! "taskId" = None.

(** What the source tests: [task.get('id') or task.get('task_id')] is falsy. *)
Definition no_identifier (task : gmap string pyval) : Prop :=
  truthy (py_or (dict_get task "id") (dict_get task "task_id")) = false.

Definition record_with_task_id_key : gmap string pyval :=
  {[ "task_id" := PStr "t9" ]}.

Definition record_without_identifier : gmap string pyval :=
  {[ "subject" := PStr "write tests"; "status" := PStr "completed" ]}.

(** What the coordinator's reconciler reads from a record. *)
Definition record_id (task : gmap string pyval) : pyval :=
  py_or (dict_get task "id") (dict_get task "task_id").

Definition record_status (task : gmap string pyval) : pyval :=
  dict_get_default task "status" (PStr "pending").

Definition record_description (task : gmap string pyval) : pyval :=
  dict_get_default task "description" (dict_get_default task "subject" (PStr "")).

Definition record_owner (task : gmap string pyval) : pyval :=
  dict_get task "owner".

(** The rows of the store that hold a given task id. *)
Definition rows_with (tid : string) (st : store) : list Tasks.row :=
  List.filter (matches_task_id tid) (tasks st).

(** Every record of the input that carries an identifier has exactly one
    row, and that row's status is the record's status ([sqlite_bind] gives
    the cell a status value is stored as). *)
Definition reconciled (records : list (gmap string pyval)) (st : store) : Prop :=
  forall task, task ∈ records -> truthy (record_id task) = true ->
    exists r, rows_with (py_str (record_id task)) st = [r]
              /\ sqlite_bind (record_status task) = Some (Tasks.status r).

(** C1 at one input list: two runs of the coordinator's reconciler. *)
Definition idempotent_reconciliation (records : list (gmap string pyval)) (w : world)
    : Prop :=
  let run := CoordinatorAgent.sync_tasks_from_json true (JList (JObject <$> records)) in
  let w1 := (run w).2 in
  let w2 := (run w1).2 in
  reconciled records (db w1)
  /\ reconciled records (db w2)
  /\ length (tasks (db w2)) = length (tasks (db w1))
  /\ (CoordinatorAgent.sync_loop (JObject <$> records) 0 w1).1 = Ok 0%nat.

(** The records on which the amended C1 is stated. *)
Definition text_status (task : gmap string pyval) : Prop :=
  exists s, record_status task = PStr s /\ s <> "".

Definition well_formed_record (task : gmap string pyval) : Prop :=
  truthy (record_id task) = true
  /\ text_status task
  /\ bindable (record_description task) = true
  /\ bindable (record_owner task) = true.

Definition consistent_statuses (records : list (gmap string pyval)) : Prop :=
  forall t1 t2, t1 ∈ records -> t2 ∈ records ->
    py_str (record_id t1) = py_str (record_id t2) -> record_status t1 = record_status t2.

Definition record_empty_status : gmap string pyval :=
  {[ "id" := PStr "a"; "status" := PStr "" ]}.

Definition record_t1_completed : gmap string pyval :=
  {[ "id" := PStr "t1"; "status" := PStr "completed" ]}.

Definition record_t1_plain : gmap string pyval :=
  {[ "id" := PStr "t1"; "subject" := PStr "scaffold project" ]}.

Definition record_t2 : gmap string pyval :=
  {[ "id" := PInt 2; "subject" := PStr "write tests"; "owner" := PStr "tester" ]}.

(** The invariant of the coordinator's loop: no task id is held by two
    rows, and every row carries the status some record of the input gives
    to its task id. *)
Definition row_agrees (records : list (gmap string pyval)) (r : Tasks.row) : Prop :=
  exists task s, task ∈ records
                 /\ py_str (record_id task) = Tasks.task_id r
                 /\ record_status task = PStr s
                 /\ Tasks.status r = Some s.

Definition store_agrees (records : list (gmap string pyval)) (st : store) : Prop :=
  NoDup (Tasks.task_id <$> tasks st)
  /\ (forall r, r ∈ tasks st -> row_agrees records r).

Definition sample_store_no_tasks : store :=
  mkStore [Sessions.mk "20260213_115900" "2026-02-13T11:59:00" "Build a todo app"
             (Some "initialization")]
    [] 0 [] 0 [] 0.

(** A store with two builders and a tester in one session. *)
Definition staffed_store : store :=
  mkStore [Sessions.mk "20260213_115900" "2026-02-13T11:59:00" "Build a todo app"
             (Some "implementation")]
    [Agents.mk 1 "20260213_115900" "builder" (Some "builder_001") "2026-02-13T12:00:00"
       (Some "active");
     Agents.mk 2 "20260213_115900" "builder" (Some "builder_002") "2026-02-13T12:01:00"
       (Some "active");
     Agents.mk 3 "20260213_115900" "tester" (Some "tester_001") "2026-02-13T12:02:00"
       (Some "active")]
    3 [] 0 [] 0.

(** Task ids are unique and none exceeds the AUTOINCREMENT counter. *)
Definition task_ids_fresh (st : store) : Prop :=
  NoDup (Tasks.id <$> tasks st)
  /\ (forall r, r ∈ tasks st -> Tasks.id r <= tasks_seq st).

(** The list elements a reconciler acts on: dicts with a truthy identifier. *)
Definition identified (t : item) : bool :=
  match t with
  | JObject task => truthy (record_id task)
  | JOther => false
  end.

(** The rows [complete_task] moves into 'completed': those of the session
    and task id whose status is not 'completed' yet. *)
Definition open_rows (sid tid : string) (st : store) : nat :=
  length (List.filter
            (fun r => String.eqb (Tasks.task_id r) tid
                      && String.eqb (Tasks.session_id r) sid
                      && negb (sql_eq (Tasks.status r) "completed"))
            (tasks st)).

(** * Properties *)

(** ** What [update_task] does, in closed form *)

Lemma with_tasks_same st : with_tasks st (tasks st) (tasks_seq st) = st.
Proof. by destruct st. Qed.

Lemma update_tasks_nil cond st : (update_tasks [] cond st).1 = st.
Proof.
  unfold update_tasks; cbn [fst].
  assert (E : map (fun r => if cond r then apply_sets [] r else r) (tasks st) = tasks st).
  { induction (tasks st) as [|r l IH]; simpl; [done|].
    f_equal; [by destruct (cond r) | exact IH]. }
  rewrite E. apply with_tasks_same.
Qed.

Lemma update_task_db tid status agent_role description w :
  db (TaskSync.update_task tid status agent_role description w).2
  = (update_tasks (effective_sets status agent_role description (clock w (reads w)))
       (matches_task_id tid) (db w)).1.
Proof.
  unfold TaskSync.update_task, TaskSync.build_updates, TaskSync.run_update,
    effective_sets, updates_of, mbind, M_bind, mret, M_ret, now, print, execute, raise.
  destruct (truthy status), (py_eq_str status "completed"),
    (truthy agent_role), (truthy description); simpl;
    rewrite ?update_tasks_nil; try done.
  all: repeat (match goal with
            | |- context [sqlite_bind ?v] => destruct (sqlite_bind v); simpl
            end); try done;
    symmetry; exact (update_tasks_nil (matches_task_id tid) (db w)).
Qed.

Lemma web_update_task_db tid status agent_role description w :
  db (WebProjectState.update_task tid status agent_role description w).2
  = db (TaskSync.update_task tid status agent_role description w).2.
Proof.
  unfold WebProjectState.update_task, TaskSync.update_task, TaskSync.build_updates,
    TaskSync.run_update, mbind, M_bind, mret, M_ret, now, print, execute, raise.
  destruct (truthy status), (py_eq_str status "completed"),
    (truthy agent_role), (truthy description); simpl; try done.
  all: repeat (match goal with
            | |- context [sqlite_bind ?v] => destruct (sqlite_bind v); simpl
            end); done.
Qed.

Lemma update_task_clock tid status agent_role description w :
  clock (TaskSync.update_task tid status agent_role description w).2 = clock w
  /\ reads (TaskSync.update_task tid status agent_role description w).2
     = if truthy status && py_eq_str status "completed" then S (reads w) else reads w.
Proof.
  unfold TaskSync.update_task, TaskSync.build_updates,
    TaskSync.run_update, mbind, M_bind, mret, M_ret, now, print, execute, raise.
  destruct (truthy status), (py_eq_str status "completed"),
    (truthy agent_role), (truthy description); simpl; try done.
  all: repeat (match goal with
            | |- context [sqlite_bind ?v] => destruct (sqlite_bind v); simpl
            end); done.
Qed.

Lemma Forall2_map_intro {A} (R : A -> A -> Prop) (f : A -> A) (l : list A) :
  (forall x, R x (f x)) -> Forall2 R l (map f l).
Proof. intros H. induction l; simpl; constructor; auto. Qed.

Lemma apply_effective_sets status agent_role description d r :
  apply_sets (effective_sets status agent_role description d) r
  = updated_row status agent_role description d r.
Proof.
  unfold effective_sets, updates_of, updated_row, params_ok, new_cell, bindable.
  destruct (truthy status), (py_eq_str status "completed"),
    (truthy agent_role), (truthy description);
    cbn [app bind_params andb orb negb];
    destruct (sqlite_bind status), (sqlite_bind agent_role), (sqlite_bind description);
    destruct r; reflexivity.
Qed.

Lemma update_task_tasks tid status agent_role description w :
  tasks (db (TaskSync.update_task tid status agent_role description w).2)
  = map (fun r => if matches_task_id tid r
                  then updated_row status agent_role description (clock w (reads w)) r
                  else r)
      (tasks (db w)).
Proof.
  rewrite update_task_db. unfold update_tasks; cbn [fst tasks with_tasks].
  apply map_ext. intros r. by rewrite apply_effective_sets.
Qed.

(** Decimal text is never the empty string. *)
Lemma pretty_N_go_nonempty (x : N) (s : string) : s <> "" -> pretty_N_go x s <> "".
Proof.
  revert s. induction (N.lt_wf_0 x) as [x _ IH]; intros s Hs.
  assert (x = 0 \/ 0 < x)%N as [->|Hx] by lia.
  - by rewrite pretty_N_go_0.
  - rewrite pretty_N_go_step by done. apply IH; [by apply N.div_lt|done].
Qed.

Lemma pretty_Z_nonempty (z : Z) : pretty z <> "".
Proof.
  destruct z as [|p|p]; [done| |done].
  unfold pretty, pretty_Z, pretty, pretty_positive, pretty, pretty_N.
  destruct (decide (N.pos p = 0%N)); [done|].
  rewrite pretty_N_go_step by lia. by apply pretty_N_go_nonempty.
Qed.

(** What a truthy parameter is bound to: a text that is not empty. *)
Lemma truthy_bound_text v c :
  truthy v = true -> sqlite_bind v = Some c -> exists t, c = Some t /\ t <> "".
Proof.
  destruct v as [|b|z|s]; simpl; intros Ht Hb; try done.
  - subst b. inversion Hb. by eexists.
  - destruct (_ && _); [|done]. inversion Hb. eexists; split; [done|].
    apply pretty_Z_nonempty.
  - inversion Hb. eexists; split; [done|].
    intros ->. done.
Qed.


Lemma update_task_rowwise (R : Tasks.row -> Tasks.row -> Prop) tid s a d w :
  (forall r,
     R r (if matches_task_id tid r then updated_row s a d (clock w (reads w)) r else r)) ->
  Forall2 R (tasks (db w)) (tasks (db (TaskSync.update_task tid s a d w).2)).
Proof. intros H. rewrite update_task_tasks. by apply Forall2_map_intro. Qed.

Lemma web_update_task_rowwise (R : Tasks.row -> Tasks.row -> Prop) tid s a d w :
  (forall r,
     R r (if matches_task_id tid r then updated_row s a d (clock w (reads w)) r else r)) ->
  Forall2 R (tasks (db w)) (tasks (db (WebProjectState.update_task tid s a d w).2)).
Proof. rewrite web_update_task_db. apply update_task_rowwise. Qed.

(** A step shared by the row-by-row proofs: split on whether the row is
    matched and whether the statement ran. *)
Ltac row_cases :=
  let r := fresh "r" in
  intros r; destruct (matches_task_id _ r) eqn:?; [|done];
  unfold updated_row; destruct (params_ok _ _ _) eqn:?; [|done];
  cbn [Tasks.id Tasks.session_id Tasks.task_id Tasks.agent_role Tasks.description
       Tasks.status Tasks.created_at Tasks.completed_at].

(** Claim C7.  Partial update preserves untouched fields: an [update_task]
    call that supplies only the status leaves description and agent_role of
    every row as they were; one that supplies only the description, or only
    the agent_role, leaves the other fields, status and completed_at
    included, as they were.  Both the [TaskSync] and the dashboard method. *)
Theorem partial_update_preserves_untouched_fields (tid : string) (v : pyval) (w : world) :
  let same_descr_role r r' :=
    Tasks.description r' = Tasks.description r
    /\ Tasks.agent_role r' = Tasks.agent_role r in
  let same_status_role r r' :=
    Tasks.status r' = Tasks.status r /\ Tasks.completed_at r' = Tasks.completed_at r
    /\ Tasks.agent_role r' = Tasks.agent_role r in
  let same_status_descr r r' :=
    Tasks.status r' = Tasks.status r /\ Tasks.completed_at r' = Tasks.completed_at r
    /\ Tasks.description r' = Tasks.description r in
  Forall2 same_descr_role (tasks (db w))
    (tasks (db_after (TaskSync.update_task tid v PNone PNone) w))
  /\ Forall2 same_status_role (tasks (db w))
       (tasks (db_after (TaskSync.update_task tid PNone PNone v) w))
  /\ Forall2 same_status_descr (tasks (db w))
       (tasks (db_after (TaskSync.update_task tid PNone v PNone) w))
  /\ Forall2 same_descr_role (tasks (db w))
       (tasks (db_after (WebProjectState.update_task tid v PNone PNone) w))
  /\ Forall2 same_status_role (tasks (db w))
       (tasks (db_after (WebProjectState.update_task tid PNone PNone v) w))
  /\ Forall2 same_status_descr (tasks (db w))
       (tasks (db_after (WebProjectState.update_task tid PNone v PNone) w)).
Proof.
  intros R1 R2 R3. unfold db_after, R1, R2, R3.
  repeat split.
  1-3: apply update_task_rowwise; row_cases; done.
  all: apply web_update_task_rowwise; row_cases; done.
Qed.





Lemma complete_task_tasks sid tid w :
  tasks (db (ProjectState.complete_task sid tid w).2)
  = map (fun r =>
           if String.eqb (Tasks.task_id r) tid && String.eqb (Tasks.session_id r) sid
           then apply_sets [(ColStatus, Some "completed");
                            (ColCompletedAt, Some (isoformat (clock w (reads w))))] r
           else r)
      (tasks (db w)).
Proof. reflexivity. Qed.

Lemma matches_task_id_true tid r : Tasks.task_id r = tid -> matches_task_id tid r = true.
Proof. intros <-. apply String.eqb_refl. Qed.

Lemma params_ok_completed a d :
  bindable a = true -> bindable d = true -> params_ok (PStr "completed") a d = true.
Proof.
  unfold params_ok. intros -> ->. simpl. by rewrite !orb_true_r.
Qed.

(** Claim C5.  An update whose status is 'completed' sets, in the one
    UPDATE statement, the status and [completed_at] of every row of that task
    id, [completed_at] being the reading of the clock made by the call;
    completing again stamps the next reading; an update whose status is not
    'completed' leaves [completed_at] of every row untouched.
    [ProjectState.complete_task] stamps the rows of its own session alike. *)
Theorem completion_stamps_completed_at
    (tid : string) (agent_role description : pyval) (w : world) :
  bindable agent_role = true -> bindable description = true ->
  let complete := TaskSync.update_task tid (PStr "completed") agent_role description in
  let w1 := (complete w).2 in
  let w2 := (complete w1).2 in
  Forall2 (fun r r' => Tasks.task_id r = tid ->
             Tasks.status r' = Some "completed"
             /\ Tasks.completed_at r' = Some (isoformat (clock w (reads w))))
    (tasks (db w)) (tasks (db w1))
  /\ Forall2 (fun r r' => Tasks.task_id r = tid ->
                Tasks.status r' = Some "completed"
                /\ Tasks.completed_at r' = Some (isoformat (clock w (S (reads w)))))
       (tasks (db w1)) (tasks (db w2))
  /\ (forall status,
        py_eq_str status "completed" = false ->
        Forall2 (fun r r' => Tasks.completed_at r' = Tasks.completed_at r)
          (tasks (db w))
          (tasks (db_after (TaskSync.update_task tid status agent_role description) w)))
  /\ (forall sid,
        Forall2 (fun r r' => Tasks.task_id r = tid -> Tasks.session_id r = sid ->
                   Tasks.status r' = Some "completed"
                   /\ Tasks.completed_at r' = Some (isoformat (clock w (reads w))))
          (tasks (db w)) (tasks (db_after (ProjectState.complete_task sid tid) w))).
Proof.
  intros Ha Hd complete w1 w2.
  pose proof (params_ok_completed _ _ Ha Hd) as Hok.
  assert (Hstep : forall w0,
    Forall2 (fun r r' => Tasks.task_id r = tid ->
               Tasks.status r' = Some "completed"
               /\ Tasks.completed_at r' = Some (isoformat (clock w0 (reads w0))))
      (tasks (db w0)) (tasks (db (complete w0).2))).
  { intros w0. apply update_task_rowwise. intros r Hr.
    rewrite (matches_task_id_true _ _ Hr). unfold updated_row. by rewrite Hok. }
  split; [apply Hstep|]. split; [|split].
  - pose proof (Hstep w1) as H1.
    destruct (update_task_clock tid (PStr "completed") agent_role description w)
      as [Hc Hr]. simpl in Hr. fold complete in Hc, Hr. fold w1 in Hc, Hr.
    by rewrite Hc, Hr in H1.
  - intros status Hne. apply update_task_rowwise. intros r.
    destruct (matches_task_id tid r); [|done].
    unfold updated_row. destruct (params_ok status agent_role description); [|done].
    cbn [Tasks.completed_at]. by rewrite Hne, andb_false_r.
  - intros sid. unfold db_after. rewrite complete_task_tasks.
    apply Forall2_map_intro. intros r -> ->. by rewrite !String.eqb_refl.
Qed.

Lemma completion_stamps_completed_at_witness :
  let w1 := (TaskSync.update_task "task-001" (PStr "completed") PNone PNone
               (initial_world sample_store sample_clock)).2 in
  Forall2 (fun r r' => Tasks.task_id r = "task-001" ->
             Tasks.status r' = Some "completed"
             /\ Tasks.completed_at r' = Some "2026-02-13T12:00:00")
    (tasks sample_store) (tasks (db w1)).
Proof.
  apply (completion_stamps_completed_at "task-001" PNone PNone
           (initial_world sample_store sample_clock)); reflexivity.
Defined.



Lemma update_task_never_raises_on_text tid s w :
  (TaskSync.update_task tid (PStr s) PNone PNone w).1 = Ok tt
  /\ (WebProjectState.update_task tid (PStr s) PNone PNone w).1 = Ok tt.
Proof.
  unfold TaskSync.update_task, WebProjectState.update_task, TaskSync.build_updates,
    TaskSync.run_update, mbind, M_bind, mret, M_ret, now, print, execute, raise.
  simpl. destruct (String.eqb s ""); simpl; [done|].
  by destruct (String.eqb s "completed").
Qed.


Lemma update_task_other_tables tid s a d w :
  let st' := db (TaskSync.update_task tid s a d w).2 in
  sessions st' = sessions (db w) /\ agents st' = agents (db w)
  /\ agents_seq st' = agents_seq (db w) /\ tasks_seq st' = tasks_seq (db w)
  /\ reports st' = reports (db w) /\ reports_seq st' = reports_seq (db w).
Proof. cbv zeta. rewrite update_task_db. by unfold update_tasks. Qed.



(** Claim C6.  [add_task] makes no duplicate check: two calls with one task
    id in one session append two rows with different ids, both pending;
    [delete_task] with that task id then removes every row holding it, these
    two included, and keeps the rest. *)
Theorem add_task_twice_then_delete_removes_both
    (sid tid : string) (role1 descr1 role2 descr2 : option string) (w : world) :
  let w1 := (ProjectState.add_task sid tid (py_opt role1) (py_opt descr1) w).2 in
  let w2 := (ProjectState.add_task sid tid (py_opt role2) (py_opt descr2) w1).2 in
  let w3 := (TaskSync.delete_task tid w2).2 in
  let w3' := (WebProjectState.delete_task tid w2).2 in
  (exists r1 r2,
     tasks (db w2) = tasks (db w) ++ [r1; r2]
     /\ Tasks.id r1 <> Tasks.id r2
     /\ Tasks.task_id r1 = tid /\ Tasks.task_id r2 = tid
     /\ Tasks.session_id r1 = sid /\ Tasks.session_id r2 = sid
     /\ Tasks.status r1 = Some "pending" /\ Tasks.status r2 = Some "pending")
  /\ (forall r, r ∈ tasks (db w3) -> Tasks.task_id r <> tid)
  /\ tasks (db w3)
     = List.filter (fun r => negb (String.eqb (Tasks.task_id r) tid)) (tasks (db w))
  /\ db w3' = db w3.
Proof.
  intros w1 w2 w3 w3'.
  assert (E2 : tasks (db w2)
    = tasks (db w)
      ++ [Tasks.mk (tasks_seq (db w) + 1) sid tid role1 descr1 (Some "pending")
            (isoformat (clock w (reads w))) None;
          Tasks.mk (tasks_seq (db w) + 1 + 1) sid tid role2 descr2 (Some "pending")
            (isoformat (clock w (S (reads w)))) None]).
  { unfold w2, w1. destruct role1, descr1, role2, descr2; simpl;
      by rewrite <- app_assoc. }
  assert (E3 : tasks (db w3)
    = List.filter (fun r => negb (String.eqb (Tasks.task_id r) tid)) (tasks (db w2))).
  { reflexivity. }
  split; [|split; [|split]].
  - do 2 eexists. split; [exact E2|]. simpl. repeat split; try done. lia.
  - intros r Hr. rewrite E3 in Hr. apply list_elem_of_In, filter_In in Hr.
    destruct Hr as [_ Hr]. intros <-. by rewrite String.eqb_refl in Hr.
  - rewrite E3, E2, List.filter_app. simpl. rewrite String.eqb_refl. simpl.
    by rewrite app_nil_r.
  - reflexivity.
Qed.

Lemma no_agent_match_map_id (agent_id : string) (f : Agents.row -> Agents.row)
    (l : list Agents.row) :
  (forall r, r ∈ l -> Agents.agent_id r <> Some agent_id) ->
  map (fun r => if sql_eq (Agents.agent_id r) agent_id then f r else r) l = l
  /\ List.filter (fun r => sql_eq (Agents.agent_id r) agent_id) l = [].
Proof.
  induction l as [|r l IH]; intros H; simpl; [done|].
  destruct IH as [-> ->]; [intros; apply H; by right|].
  destruct (sql_eq (Agents.agent_id r) agent_id) eqn:E; [|done].
  unfold sql_eq in E. destruct (Agents.agent_id r) as [t|] eqn:Ea; [|done].
  apply String.eqb_eq in E. subst t. destruct (H r); [by left|done].
Qed.

Lemma sql_eq_true c s : sql_eq c s = true <-> c = Some s.
Proof.
  unfold sql_eq. destruct c as [t|]; [|done].
  rewrite String.eqb_eq. split; congruence.
Qed.

Lemma with_agents_same st : with_agents st (agents st) (agents_seq st) = st.
Proof. by destruct st. Qed.

Lemma filter_nil_Forall2_same {A} (p : A -> bool) (f : A -> A) (R : A -> A -> Prop)
    (l : list A) :
  List.filter p l = [] ->
  Forall2 R l (map (fun r => if p r then f r else r) l) ->
  Forall2 R l l.
Proof.
  induction l as [|r l IH]; simpl; [done|].
  destruct (p r); [done|].
  intros Hl H. inversion H; subst. constructor; auto.
Qed.

(** Claim C9.  [update_agent_status] matches rows by the [agent_id] column:
    it never raises and returns [True]; every row whose [agent_id] is the
    given one takes the given status and keeps its other cells, every other
    row is unchanged; when no row matches, 'Agent not found' is printed and
    the database is unchanged; when one matches, the update is reported. *)
Theorem update_agent_status_by_agent_id (agent_id status : string) (w : world) :
  let call := SyncAgentToDb.update_agent_status true agent_id status in
  (call w).1 = Ok true
  /\ Forall2 (fun r r' =>
                (Agents.agent_id r = Some agent_id ->
                   Agents.status r' = Some status /\ Agents.id r' = Agents.id r
                   /\ Agents.session_id r' = Agents.session_id r
                   /\ Agents.role r' = Agents.role r
                   /\ Agents.agent_id r' = Agents.agent_id r
                   /\ Agents.started_at r' = Agents.started_at r)
                /\ (Agents.agent_id r <> Some agent_id -> r' = r))
       (agents (db w)) (agents (db_after call w))
  /\ ((forall r, r ∈ agents (db w) -> Agents.agent_id r <> Some agent_id) ->
      call w = (Ok true,
                mkWorld (db w) (clock w) (reads w) (out w ++ [MsgAgentNotFound agent_id])))
  /\ ((exists r, r ∈ agents (db w) /\ Agents.agent_id r = Some agent_id) ->
      out (call w).2 = out w ++ [MsgAgentUpdated agent_id status]).
Proof.
  intros call. unfold call, db_after, SyncAgentToDb.update_agent_status, mbind, M_bind,
    mret, M_ret, query, execute, print, update_agents. cbn [negb fst snd].
  set (hit := List.filter (fun r => sql_eq (Agents.agent_id r) agent_id) (agents (db w))).
  set (upd := map (fun r => if sql_eq (Agents.agent_id r) agent_id
                            then set_agent_status (Some status) r else r) (agents (db w))).
  split; [by destruct (0 <? length hit)%nat|].
  split; [|split].
  - assert (Hupd : Forall2 (fun r r' =>
        (Agents.agent_id r = Some agent_id ->
           Agents.status r' = Some status /\ Agents.id r' = Agents.id r
           /\ Agents.session_id r' = Agents.session_id r
           /\ Agents.role r' = Agents.role r
           /\ Agents.agent_id r' = Agents.agent_id r
           /\ Agents.started_at r' = Agents.started_at r)
        /\ (Agents.agent_id r <> Some agent_id -> r' = r)) (agents (db w)) upd).
    { apply Forall2_map_intro. intros r.
      destruct (sql_eq (Agents.agent_id r) agent_id) eqn:E.
      - apply sql_eq_true in E. split; [by intros _|by intros []].
      - split; [|done]. intros E'. apply sql_eq_true in E'. congruence. }
    destruct (0 <? length hit)%nat eqn:Hhit; cbn; [exact Hupd|].
    assert (Hnil : hit = []).
    { destruct hit; [done|]. simpl in Hhit. done. }
    exact (filter_nil_Forall2_same _ _ _ _ Hnil Hupd).
  - intros Hno. destruct (no_agent_match_map_id agent_id (set_agent_status (Some status))
                            _ Hno) as [_ Hf].
    fold hit in Hf. by rewrite Hf.
  - intros (r & Hin & Hr).
    assert (Hne : (0 <? length hit)%nat = true).
    { assert (Hr' : r ∈ hit).
      { apply list_elem_of_In, filter_In. split; [by apply list_elem_of_In|].
        by apply sql_eq_true. }
      destruct hit; [by apply not_elem_of_nil in Hr'|done]. }
    by rewrite Hne.
Qed.

Lemma update_agent_status_by_agent_id_witness :
  SyncAgentToDb.update_agent_status true "builder_001" "retired"
    (initial_world sample_store sample_clock)
  = (Ok true,
     mkWorld sample_store sample_clock 0 [MsgAgentNotFound "builder_001"]).
Proof.
  apply (update_agent_status_by_agent_id "builder_001" "retired"
           (initial_world sample_store sample_clock)).
  intros r Hr. simpl in Hr. by apply not_elem_of_nil in Hr.
Defined.

Lemma count_completed_fold sid (l : list Tasks.row) (n : Z) :
  fold_left
    (fun n r =>
       if String.eqb (Tasks.session_id r) sid && sql_eq (Tasks.status r) "completed"
       then n + 1 else n) l n
  = n + Z.of_nat
          (length (filter (fun r => Tasks.session_id r = sid
                                    /\ Tasks.status r = Some "completed") l)).
Proof.
  revert n. induction l as [|r l IH]; intros n; simpl; [lia|].
  rewrite IH. rewrite filter_cons.
  destruct (String.eqb (Tasks.session_id r) sid) eqn:E1;
    destruct (sql_eq (Tasks.status r) "completed") eqn:E2; simpl;
    destruct (decide _) as [[H1 H2]|Hn]; simpl; try lia.
  - destruct Hn. split; [by apply String.eqb_eq|by apply sql_eq_true].
  - apply sql_eq_true in H2. congruence.
  - apply String.eqb_eq in H1. congruence.
  - apply String.eqb_eq in H1. congruence.
Qed.

Lemma count_completed_spec sid st :
  count_completed sid st = Z.of_nat (completed_rows sid st).
Proof. unfold count_completed, completed_rows. by rewrite count_completed_fold. Qed.

(** Claim C4.  After any sequence of add, create, update, complete and
    delete calls, [get_completed_tasks_count] for a session answers the
    number of Task rows of that session whose status is 'completed', and
    changes nothing. *)
Theorem completed_count_matches_rows (ops : list op) (sid : string) (w : world) :
  let w' := run_ops ops w in
  ProjectState.get_completed_tasks_count sid w'
  = (Ok (Z.of_nat (completed_rows sid (db w'))), w').
Proof.
  intros w'. unfold ProjectState.get_completed_tasks_count, query.
  by rewrite count_completed_spec.
Qed.

Example completed_count_after_interleaving :
  let w := run_ops
             [AddTask "s1" "t1" PNone PNone; AddTask "s1" "t2" PNone PNone;
              AddTask "s2" "t1" PNone PNone; CompleteTask "s1" "t1";
              UpdateTask "t2" (PStr "completed") PNone PNone;
              UpdateTask "t2" (PStr "pending") PNone PNone;
              AddTask "s1" "t3" PNone PNone; CompleteTask "s1" "t3";
              DeleteTask "t3"]
             (initial_world empty_store sample_clock) in
  (ProjectState.get_completed_tasks_count "s1" w).1 = Ok 1
  /\ (ProjectState.get_completed_tasks_count "s2" w).1 = Ok 0.
Proof. by vm_compute. Qed.

Lemma latest_session_row_in l r : latest_session_row l = Some r -> r ∈ l.
Proof.
  revert r. induction l as [|x l IH]; intros r; simpl; [done|].
  destruct (latest_session_row l) as [r'|].
  - destruct (String.ltb _ _); intros [= <-]; [right; by apply IH|left].
  - intros [= <-]. left.
Qed.

Lemma latest_session_row_none l : latest_session_row l = None -> l = [].
Proof.
  destruct l as [|x l]; simpl; [done|].
  destruct (latest_session_row l); [by destruct (String.ltb _ _)|done].
Qed.

Lemma session_exists_in st r :
  r ∈ sessions st -> session_exists st (Sessions.session_id r) = true.
Proof.
  intros Hr. unfold session_exists. apply existsb_exists.
  exists r. split; [by apply list_elem_of_In|apply String.eqb_refl].
Qed.

(** Claim C2 does not hold of the source: on a database whose sessions
    table is empty, [create_task] without a session id (the call of
    [task_sync.py]'s own self-test) invents a session id from the clock and
    inserts the task under it without inserting the session, so the store
    has an orphaned Task row afterwards. *)
Theorem create_task_without_session_leaves_orphan (clk : nat -> datetime) :
  let w := initial_world empty_store clk in
  let call := TaskSync.create_task "test-001" (PStr "Test task") (PStr "builder") PNone in
  referential_integrity (db w)
  /\ (call w).1 = Ok tt
  /\ tasks (db_after call w)
     = [Tasks.mk 1 (strftime (clk 0%nat)) "test-001" (Some "builder") (Some "Test task")
          (Some "pending") (isoformat (clk 1%nat)) None]
  /\ sessions (db_after call w) = []
  /\ ~ referential_integrity (db_after call w).
Proof.
  intros w call. split.
  { repeat split; intros r Hr; by apply not_elem_of_nil in Hr. }
  split; [reflexivity|]. split; [reflexivity|]. split; [reflexivity|].
  intros (_ & Ht & _).
  specialize (Ht _ ltac:(left)). done.
Qed.

(** The sibling path: [sync_agent] without a session id never leaves an
    orphan, because it inserts the session it invents. *)
Lemma sync_agent_keeps_referential_integrity role agent_id status w :
  referential_integrity (db w) ->
  referential_integrity
    (db_after (SyncAgentToDb.sync_agent true role agent_id PNone status) w).
Proof.
  intros (Ha & Ht & Hr).
  unfold db_after, SyncAgentToDb.sync_agent, select_latest_session, mbind, M_bind, mret,
    M_ret, query, now, execute, execute_checked, print, bound_not_null, bound.
  cbn [negb truthy].
  destruct (latest_session_row (sessions (db w))) as [s|] eqn:E; cbn.
  - apply latest_session_row_in in E.
    repeat split; cbn; intros r Hin.
    + apply elem_of_app in Hin as [Hin|Hin]; [by apply Ha|].
      apply list_elem_of_singleton in Hin. subst r. cbn.
      by apply (session_exists_in (db w)).
    + by apply Ht.
    + by apply Hr.
  - apply latest_session_row_none in E.
    unfold insert_session, session_exists. rewrite E. cbn.
    unfold mbind, M_bind, mret, M_ret. cbn.
    repeat split; cbn; intros r Hin.
    + apply elem_of_app in Hin as [Hin|Hin].
      * apply Ha in Hin. unfold session_exists in Hin. by rewrite E in Hin.
      * apply list_elem_of_singleton in Hin. subst r. cbn.
        unfold session_exists. cbn. by rewrite String.eqb_refl.
    + apply Ht in Hin. unfold session_exists in Hin. by rewrite E in Hin.
    + apply Hr in Hin. unfold session_exists in Hin. by rewrite E in Hin.
Qed.

(** Claim C8, as stated, fails: a record with nothing under 'id' or
    'taskId' is still reconciled when it has a 'task_id'. *)
Lemma record_without_id_or_taskId_is_reconciled :
  no_identifier_as_stated record_with_task_id_key
  /\ Tasks.task_id
       <$> tasks (db_after (CoordinatorAgent.sync_tasks_from_json true
                              (JList [JObject record_with_task_id_key]))
                    (initial_world empty_store sample_clock))
     = ["t9"]
  /\ Tasks.task_id
       <$> tasks (db_after (SyncTasksToDb.sync_from_json
                              (JList [JObject record_with_task_id_key]))
                    (initial_world empty_store sample_clock))
     = ["t9"].
Proof. split; [by split|]. split; by vm_compute. Qed.

Lemma coordinator_sync_task_skip task w :
  no_identifier task -> CoordinatorAgent.sync_task task w = (Ok 0%nat, w).
Proof. unfold no_identifier, CoordinatorAgent.sync_task. by intros ->. Qed.

Lemma standalone_sync_task_skip task w :
  no_identifier task -> SyncTasksToDb.sync_task task w = (Ok 0%nat, w).
Proof. unfold no_identifier, SyncTasksToDb.sync_task. by intros ->. Qed.

Lemma coordinator_sync_loop_skip task pre post n w :
  no_identifier task ->
  CoordinatorAgent.sync_loop (pre ++ JObject task :: post) n w
  = CoordinatorAgent.sync_loop (pre ++ post) n w.
Proof.
  intros Hno. revert n w. induction pre as [|x pre IH]; intros n w; simpl.
  - unfold mbind, M_bind. rewrite (coordinator_sync_task_skip _ _ Hno).
    by rewrite Nat.add_0_r.
  - unfold mbind, M_bind. destruct (CoordinatorAgent.sync_item x w) as [[a|e] w']; [|done].
    apply IH.
Qed.

Lemma standalone_sync_loop_skip task pre post n w :
  no_identifier task ->
  SyncTasksToDb.sync_loop (pre ++ JObject task :: post) n w
  = SyncTasksToDb.sync_loop (pre ++ post) n w.
Proof.
  intros Hno. revert n w. induction pre as [|x pre IH]; intros n w; simpl.
  - unfold mbind, M_bind. rewrite (standalone_sync_task_skip _ _ Hno).
    by rewrite Nat.add_0_r.
  - unfold mbind, M_bind. destruct (SyncTasksToDb.sync_item x w) as [[a|e] w']; [|done].
    apply IH.
Qed.

(** Claim C8, amended.  On an input that is not a list, or does not parse,
    both reconcilers print their one warning, return without raising and
    leave the database and the clock untouched.  A record whose
    [task.get('id') or task.get('task_id')] is falsy is skipped: its loop
    turn changes nothing, and the run on the list with the record equals
    the run on the list without it. *)
Theorem reconciler_rejects_non_list_and_skips_unidentified
    (task : gmap string pyval) (pre post : list item) (w : world) :
  let said m := (Ok tt, mkWorld (db w) (clock w) (reads w) (out w ++ [m])) in
  CoordinatorAgent.sync_tasks_from_json true NotList w = said MsgExpectedArray
  /\ CoordinatorAgent.sync_tasks_from_json true Unparseable w = said MsgJSONError
  /\ SyncTasksToDb.sync_from_json NotList w = said MsgExpectedArray
  /\ SyncTasksToDb.sync_from_json Unparseable w = said MsgJSONError
  /\ (no_identifier task ->
      CoordinatorAgent.sync_task task w = (Ok 0%nat, w)
      /\ SyncTasksToDb.sync_task task w = (Ok 0%nat, w)
      /\ CoordinatorAgent.sync_tasks_from_json true (JList (pre ++ JObject task :: post)) w
         = CoordinatorAgent.sync_tasks_from_json true (JList (pre ++ post)) w
      /\ SyncTasksToDb.sync_from_json (JList (pre ++ JObject task :: post)) w
         = SyncTasksToDb.sync_from_json (JList (pre ++ post)) w).
Proof.
  intros said. do 4 (split; [reflexivity|]).
  intros Hno.
  split; [by apply coordinator_sync_task_skip|].
  split; [by apply standalone_sync_task_skip|].
  unfold CoordinatorAgent.sync_tasks_from_json, SyncTasksToDb.sync_from_json,
    try_except, mbind, M_bind. cbn [negb].
  rewrite (coordinator_sync_loop_skip task pre post 0 w Hno).
  by rewrite (standalone_sync_loop_skip task pre post 0 w Hno).
Qed.

Lemma reconciler_rejects_non_list_and_skips_unidentified_witness :
  no_identifier record_without_identifier
  /\ CoordinatorAgent.sync_tasks_from_json true
       (JList ([JObject record_with_task_id_key] ++ JObject record_without_identifier :: []))
       (initial_world empty_store sample_clock)
     = CoordinatorAgent.sync_tasks_from_json true
         (JList ([JObject record_with_task_id_key] ++ []))
         (initial_world empty_store sample_clock).
Proof.
  split; [reflexivity|].
  apply (reconciler_rejects_non_list_and_skips_unidentified record_without_identifier
           [JObject record_with_task_id_key] []
           (initial_world empty_store sample_clock)).
  reflexivity.
Defined.

(** Claim C1, as stated, fails on the coordinator's reconciler: an empty
    status is never applied, and of two records for one identifier only one
    status can stand. *)
Lemma reconciliation_status_can_differ_from_input :
  ~ idempotent_reconciliation [record_empty_status]
      (initial_world empty_store sample_clock)
  /\ ~ idempotent_reconciliation [record_t1_completed; record_t1_plain]
         (initial_world empty_store sample_clock).
Proof.
  split.
  - intros (H & _). destruct (H record_empty_status) as (r & Hr & Hs); [by left|done|].
    vm_compute in Hr. injection Hr as <-. vm_compute in Hs. done.
  - intros (H & _). destruct (H record_t1_plain) as (r & Hr & Hs);
      [right; by left|done|].
    vm_compute in Hr. injection Hr as <-. vm_compute in Hs. done.
Qed.

Lemma select_task_id_none tid st :
  select_task_id tid st = None -> forall r, r ∈ tasks st -> Tasks.task_id r <> tid.
Proof.
  unfold select_task_id. intros H r Hr E.
  assert (Hin : r ∈ List.filter (fun r => String.eqb (Tasks.task_id r) tid) (tasks st)).
  { apply list_elem_of_In, filter_In. split; [by apply list_elem_of_In|].
    by apply String.eqb_eq. }
  destruct (List.filter _ (tasks st)); [by apply not_elem_of_nil in Hin|done].
Qed.

Lemma select_task_id_some tid st i :
  select_task_id tid st = Some i -> exists r, r ∈ tasks st /\ Tasks.task_id r = tid.
Proof.
  unfold select_task_id. intros H.
  destruct (List.filter _ (tasks st)) as [|r l] eqn:E; [done|].
  assert (Hin : In r (List.filter (fun r => String.eqb (Tasks.task_id r) tid) (tasks st))).
  { rewrite E. by left. }
  apply filter_In in Hin as [Hin Hr]. exists r.
  split; [by apply list_elem_of_In|by apply String.eqb_eq].
Qed.

Lemma create_task_effect tid descr owner w :
  bindable descr = true -> bindable owner = true ->
  exists r w',
    TaskSync.create_task tid descr owner PNone w = (Ok tt, w')
    /\ tasks (db w') = tasks (db w) ++ [r]
    /\ Tasks.task_id r = tid /\ Tasks.status r = Some "pending".
Proof.
  unfold bindable, TaskSync.create_task, mbind, M_bind, mret, M_ret, query, now, execute,
    print, bound_not_null, bound, insert_task.
  cbn [truthy]. intros Hd Ho.
  destruct (sqlite_bind descr) as [cd|]; [|done].
  destruct (sqlite_bind owner) as [co|]; [|done].
  destruct (select_latest_session (db w)); cbn; do 2 eexists; by repeat split.
Qed.

(** The status step of a loop turn. *)
Lemma status_step_effect tid s w :
  s <> "" ->
  exists w' f,
    (if negb (py_eq_str (PStr s) "pending")
     then TaskSync.update_task tid (PStr s) PNone PNone
     else mret tt) w = (Ok tt, w')
    /\ tasks (db w') = map f (tasks (db w))
    /\ (forall r, Tasks.task_id (f r) = Tasks.task_id r
                  /\ (Tasks.task_id r = tid ->
                      Tasks.status (f r)
                      = if String.eqb s "pending" then Tasks.status r else Some s)
                  /\ (Tasks.task_id r <> tid -> Tasks.status (f r) = Tasks.status r)).
Proof.
  intros Hs.
  assert (Ht : truthy (PStr s) = true).
  { simpl. destruct (String.eqb s "") eqn:E; [|done]. by apply String.eqb_eq in E. }
  unfold py_eq_str. destruct (String.eqb s "pending") eqn:Hp; cbn [negb].
  - exists w, (fun r => r). split; [reflexivity|]. split; [by rewrite map_id|done].
  - destruct (update_task_never_raises_on_text tid s w) as [Hok _].
    pose proof (update_task_tasks tid (PStr s) PNone PNone w) as Htasks.
    destruct (TaskSync.update_task tid (PStr s) PNone PNone w) as [o w2].
    simpl in Hok, Htasks. subst o.
    exists w2,
      (fun r => if matches_task_id tid r
                then updated_row (PStr s) PNone PNone (clock w (reads w)) r else r).
    split; [done|]. split; [done|].
    intros r. unfold matches_task_id.
    destruct (String.eqb (Tasks.task_id r) tid) eqn:E.
    + apply String.eqb_eq in E.
      unfold updated_row, params_ok, new_cell, bindable. rewrite Ht. by cbn.
    + split; [done|]. split; [|done]. intros E'. rewrite E' in E.
      by rewrite String.eqb_refl in E.
Qed.

(** One turn of the coordinator's loop on a well-formed record. *)
Lemma coordinator_sync_task_effect task s w :
  truthy (record_id task) = true ->
  record_status task = PStr s -> s <> "" ->
  bindable (record_description task) = true ->
  bindable (record_owner task) = true ->
  let tid := py_str (record_id task) in
  exists w' new f,
    CoordinatorAgent.sync_task task w = (Ok (length new), w')
    /\ tasks (db w') = map f (tasks (db w) ++ new)
    /\ (forall r, Tasks.task_id (f r) = Tasks.task_id r
                  /\ (Tasks.task_id r = tid ->
                      Tasks.status (f r)
                      = if String.eqb s "pending" then Tasks.status r else Some s)
                  /\ (Tasks.task_id r <> tid -> Tasks.status (f r) = Tasks.status r))
    /\ (((exists r, r ∈ tasks (db w) /\ Tasks.task_id r = tid) /\ new = [])
        \/ ((forall r, r ∈ tasks (db w) -> Tasks.task_id r <> tid)
            /\ exists r, new = [r] /\ Tasks.task_id r = tid
                         /\ Tasks.status r = Some "pending")).
Proof.
  intros Hid Hst Hs Hd Ho tid.
  unfold CoordinatorAgent.sync_task.
  fold (record_id task) (record_status task) (record_owner task).
  change (dict_get_default task "description" (dict_get_default task "subject" (PStr "")))
    with (record_description task).
  rewrite Hid, Hst. fold tid.
  unfold mbind, M_bind, query.
  destruct (select_task_id tid (db w)) as [i|] eqn:E.
  - destruct (status_step_effect tid s w Hs) as (w2 & f & Hrun & Htasks & Hf).
    unfold mret at 1, M_ret at 1. rewrite Hrun.
    exists w2, [], f. split; [done|]. split; [by rewrite app_nil_r|]. split; [done|].
    left. split; [by eapply select_task_id_some|done].
  - destruct (create_task_effect tid _ _ w Hd Ho) as (r & w1 & Hc & Ht1 & Hr1 & Hr2).
    rewrite Hc. unfold mret at 1, M_ret at 1.
    destruct (status_step_effect tid s w1 Hs) as (w2 & f & Hrun & Htasks & Hf).
    rewrite Hrun.
    exists w2, [r], f. split; [done|]. split; [by rewrite Htasks, Ht1|]. split; [done|].
    right. split; [by apply select_task_id_none|]. by exists r.
Qed.

Lemma fmap_task_id_map (f : Tasks.row -> Tasks.row) (l : list Tasks.row) :
  (forall r, Tasks.task_id (f r) = Tasks.task_id r) ->
  Tasks.task_id <$> map f l = Tasks.task_id <$> l.
Proof.
  intros H. induction l as [|r l IH]; simpl; [done|]. f_equal; [apply H|exact IH].
Qed.

Lemma loop_turn_keeps_agreement records task s (l new : list Tasks.row)
    (f : Tasks.row -> Tasks.row) :
  consistent_statuses records -> task ∈ records ->
  record_status task = PStr s ->
  (forall r, Tasks.task_id (f r) = Tasks.task_id r
             /\ (Tasks.task_id r = py_str (record_id task) ->
                 Tasks.status (f r)
                 = if String.eqb s "pending" then Tasks.status r else Some s)
             /\ (Tasks.task_id r <> py_str (record_id task) ->
                 Tasks.status (f r) = Tasks.status r)) ->
  (forall r, r ∈ new -> Tasks.task_id r = py_str (record_id task)
                        /\ Tasks.status r = Some "pending") ->
  (forall r, r ∈ l -> row_agrees records r) ->
  forall r', r' ∈ map f (l ++ new) -> row_agrees records r'.
Proof.
  intros Hcons Htask Hst Hf Hnew Hold r' Hr'.
  apply list_elem_of_fmap in Hr' as (r & -> & Hr).
  destruct (Hf r) as (Hid & Hhit & Hmiss).
  destruct (decide (Tasks.task_id r = py_str (record_id task))) as [E|E].
  - exists task, s. split; [done|]. split; [by rewrite Hid|]. split; [done|].
    rewrite (Hhit E).
    destruct (String.eqb s "pending") eqn:Hp; [|done].
    apply String.eqb_eq in Hp.
    apply elem_of_app in Hr as [Hr|Hr].
    + destruct (Hold r Hr) as (task' & s' & Hin' & Hid' & Hst' & Hrow).
      assert (Heq : record_status task' = record_status task).
      { apply Hcons; [done|done|congruence]. }
      rewrite Hst', Hst in Heq. congruence.
    + destruct (Hnew r Hr) as [_ ->]. by rewrite Hp.
  - apply elem_of_app in Hr as [Hr|Hr].
    + destruct (Hold r Hr) as (task' & s' & Hin' & Hid' & Hst' & Hrow).
      exists task', s'. rewrite Hid, (Hmiss E). done.
    + destruct (Hnew r Hr) as [? _]. done.
Qed.

Lemma coordinator_sync_loop_cons t (p : list item) n w :
  CoordinatorAgent.sync_loop (JObject t :: p) n w
  = match CoordinatorAgent.sync_task t w with
    | (Ok a, w') => CoordinatorAgent.sync_loop p (n + a)%nat w'
    | (Raise e, w') => (Raise e, w')
    end.
Proof. reflexivity. Qed.

Lemma coordinator_sync_loop_invariant records p :
  consistent_statuses records ->
  forall n w,
    (forall t, t ∈ p -> t ∈ records) ->
    Forall well_formed_record p ->
    store_agrees records (db w) ->
    exists w',
      CoordinatorAgent.sync_loop (JObject <$> p) n w
      = (Ok (n + (length (tasks (db w')) - length (tasks (db w))))%nat, w')
      /\ store_agrees records (db w')
      /\ (length (tasks (db w)) <= length (tasks (db w')))%nat
      /\ (forall tid, tid ∈ (Tasks.task_id <$> tasks (db w)) ->
                      tid ∈ (Tasks.task_id <$> tasks (db w')))
      /\ (forall t, t ∈ p ->
                    py_str (record_id t) ∈ (Tasks.task_id <$> tasks (db w'))).
Proof.
  intros Hcons. induction p as [|t p IH]; intros n w Hsub Hwf [Hnd Hag].
  - exists w. simpl. split; [by rewrite Nat.sub_diag, Nat.add_0_r|].
    split; [done|]. split; [done|]. split; [done|].
    intros t Ht. by apply not_elem_of_nil in Ht.
  - apply Forall_cons in Hwf as [(Hid & (s & Hst & Hs) & Hd & Ho) Hwf].
    destruct (coordinator_sync_task_effect t s w Hid Hst Hs Hd Ho)
      as (w1 & new & f & Hrun & Htasks & Hf & Hnew).
    assert (Hids : Tasks.task_id <$> tasks (db w1)
                   = (Tasks.task_id <$> tasks (db w)) ++ (Tasks.task_id <$> new)).
    { rewrite Htasks, fmap_task_id_map by (intros r; apply Hf). by rewrite fmap_app. }
    assert (Hnew' : forall r, r ∈ new ->
              Tasks.task_id r = py_str (record_id t) /\ Tasks.status r = Some "pending").
    { intros r Hr. destruct Hnew as [[_ ->]|(_ & r0 & -> & ? & ?)].
      - by apply not_elem_of_nil in Hr.
      - apply list_elem_of_singleton in Hr. by subst r. }
    assert (Hag1 : store_agrees records (db w1)).
    { split.
      - rewrite Hids. destruct Hnew as [[_ ->]|(Hfresh & r0 & -> & Hr0 & _)].
        + by rewrite app_nil_r.
        + simpl. apply NoDup_app. split; [done|]. split; [|apply NoDup_singleton].
          intros x Hx Hx'. apply list_elem_of_singleton in Hx'. subst x.
          apply list_elem_of_fmap in Hx as (r & Hr & Hin).
          apply (Hfresh r Hin). congruence.
      - rewrite Htasks.
        apply (loop_turn_keeps_agreement records t s); try done.
        apply Hsub. by left. }
    assert (Hlen1 : length (tasks (db w1))
                    = (length (tasks (db w)) + length new)%nat).
    { by rewrite Htasks, length_map, length_app. }
    assert (Hhere : py_str (record_id t) ∈ (Tasks.task_id <$> tasks (db w1))).
    { rewrite Hids. apply elem_of_app.
      destruct Hnew as [[(r & Hr & Hrid) _]|(_ & r0 & -> & Hr0 & _)].
      - left. apply list_elem_of_fmap. by exists r.
      - right. simpl. rewrite Hr0. by left. }
    destruct (IH (n + length new)%nat w1) as (w' & Hloop & Hag' & Hle & Hmono & Hcov);
      [intros; apply Hsub; by right|done|done|].
    exists w'. split.
    { rewrite fmap_cons, coordinator_sync_loop_cons, Hrun, Hloop. do 2 f_equal. lia. }
    split; [done|]. split; [lia|]. split.
    { intros tid Htid. apply Hmono. rewrite Hids. apply elem_of_app. by left. }
    intros t' Ht'. apply elem_of_cons in Ht' as [->|Ht'];
      [by apply Hmono|by apply Hcov].
Qed.

Lemma filter_unique_task_id (l : list Tasks.row) (r : Tasks.row) :
  NoDup (Tasks.task_id <$> l) -> r ∈ l ->
  List.filter (matches_task_id (Tasks.task_id r)) l = [r].
Proof.
  induction l as [|x l IH]; intros Hnd Hr; [by apply not_elem_of_nil in Hr|].
  simpl in Hnd. apply NoDup_cons in Hnd as [Hx Hnd].
  assert (Hnone : forall y, y ∈ l -> Tasks.task_id y <> Tasks.task_id x).
  { intros y Hy E. apply Hx. apply list_elem_of_fmap. by exists y. }
  apply elem_of_cons in Hr as [->|Hr]; simpl; unfold matches_task_id at 1.
  - rewrite String.eqb_refl. f_equal.
    clear IH Hx Hnd. induction l as [|y l IH]; simpl; [done|].
    unfold matches_task_id at 1.
    destruct (String.eqb (Tasks.task_id y) (Tasks.task_id x)) eqn:E.
    + apply String.eqb_eq in E. destruct (Hnone y); [by left|done].
    + apply IH. intros z Hz. apply Hnone. by right.
  - destruct (String.eqb (Tasks.task_id x) (Tasks.task_id r)) eqn:E.
    + apply String.eqb_eq in E. destruct (Hnone r Hr). done.
    + by apply IH.
Qed.

Lemma agreement_gives_reconciled records st :
  consistent_statuses records ->
  store_agrees records st ->
  (forall t, t ∈ records -> py_str (record_id t) ∈ (Tasks.task_id <$> tasks st)) ->
  reconciled records st.
Proof.
  intros Hcons [Hnd Hag] Hcov task Htask _.
  destruct (proj1 (list_elem_of_fmap _ _ _) (Hcov task Htask)) as (r & Hid & Hr).
  exists r. split.
  - unfold rows_with. rewrite Hid. by apply filter_unique_task_id.
  - destruct (Hag r Hr) as (task' & s' & Hin' & Hid' & Hst' & Hrow).
    assert (Heq : record_status task' = record_status task).
    { apply Hcons; [done|done|congruence]. }
    rewrite <- Heq, Hst', Hrow. done.
Qed.

Lemma coordinator_run_db (l : list item) w c w' :
  CoordinatorAgent.sync_loop l 0 w = (Ok c, w') ->
  db (CoordinatorAgent.sync_tasks_from_json true (JList l) w).2 = db w'.
Proof.
  intros H. unfold CoordinatorAgent.sync_tasks_from_json, try_except, mbind, M_bind.
  cbn [negb]. rewrite H. by destruct (0 <? c)%nat.
Qed.

(** Claim C1, amended.  On a store without tasks, for every list of
    records that each carry a truthy identifier, a non-empty text status (or
    none, which reads as 'pending') and bindable description and owner, and
    that give one status to one identifier: after the first and after the
    second run of [sync_tasks_from_json] every record has exactly one row
    and that row holds the record's status; the second run adds no row and
    its [synced_count] ends at zero. *)
Theorem reconciliation_is_idempotent (records : list (gmap string pyval)) (w : world) :
  tasks (db w) = [] ->
  Forall well_formed_record records ->
  consistent_statuses records ->
  idempotent_reconciliation records w.
Proof.
  intros Hempty Hwf Hcons.
  assert (H0 : store_agrees records (db w)).
  { split; rewrite Hempty; [constructor|].
    intros r Hr. by apply not_elem_of_nil in Hr. }
  destruct (coordinator_sync_loop_invariant records records Hcons 0 w)
    as (w1 & Hloop1 & Hag1 & _ & _ & Hcov1); [done|done|done|].
  pose proof (coordinator_run_db _ _ _ _ Hloop1) as Hdb1.
  set (run := CoordinatorAgent.sync_tasks_from_json true (JList (JObject <$> records))).
  fold run in Hdb1.
  assert (Hag1' : store_agrees records (db (run w).2)) by by rewrite Hdb1.
  destruct (coordinator_sync_loop_invariant records records Hcons 0 (run w).2)
    as (w2 & Hloop2 & Hag2 & Hle & _ & Hcov2); [done|done|done|].
  pose proof (coordinator_run_db _ _ _ _ Hloop2) as Hdb2. fold run in Hdb2.
  assert (Hlen : length (tasks (db w2)) = length (tasks (db (run w).2))).
  { apply Nat.le_antisymm; [|done].
    rewrite <- (length_fmap Tasks.task_id (tasks (db w2))).
    rewrite <- (length_fmap Tasks.task_id (tasks (db (run w).2))).
    apply submseteq_length, NoDup_submseteq; [exact (proj1 Hag2)|].
    intros tid Htid.
    apply list_elem_of_fmap in Htid as (r & -> & Hr).
    destruct (proj2 Hag2 r Hr) as (task & s & Hin & <- & _).
    rewrite Hdb1. by apply Hcov1. }
  unfold idempotent_reconciliation. cbv zeta. subst run.
  split; [|split; [|split]].
  - rewrite Hdb1. by apply agreement_gives_reconciled.
  - rewrite Hdb2. by apply agreement_gives_reconciled.
  - by rewrite Hdb2.
  - rewrite Hloop2. simpl. f_equal. lia.
Qed.

Lemma reconciliation_is_idempotent_witness :
  idempotent_reconciliation [record_t1_completed; record_t2]
    (initial_world sample_store_no_tasks sample_clock).
Proof.
  apply (reconciliation_is_idempotent [record_t1_completed; record_t2]
           (initial_world sample_store_no_tasks sample_clock)).
  - reflexivity.
  - repeat constructor; try reflexivity.
    + exists "completed". by split.
    + exists "pending". by split.
  - intros t1 t2 H1 H2.
    apply elem_of_cons in H1 as [->|H1]; [|apply list_elem_of_singleton in H1 as ->];
      (apply elem_of_cons in H2 as [->|H2]; [|apply list_elem_of_singleton in H2 as ->]);
      try done; intros E; by vm_compute in E.
Defined.

(** The standalone script has no existence check: a second run inserts the
    task again and counts it again. *)
Example sync_from_json_twice_duplicates :
  let run := SyncTasksToDb.sync_from_json (JList [JObject record_t1_completed]) in
  let w1 := (run (initial_world sample_store_no_tasks sample_clock)).2 in
  let w2 := (run w1).2 in
  Tasks.task_id <$> tasks (db w1) = ["t1"]
  /\ Tasks.task_id <$> tasks (db w2) = ["t1"; "t1"]
  /\ out w2 = [MsgSyncedTask "t1"; MsgSyncedUpdate "t1" "completed"; MsgSyncedTotal 1;
               MsgSyncedTask "t1"; MsgSyncedUpdate "t1" "completed"; MsgSyncedTotal 1].
Proof. by vm_compute. Qed.

(** The end-to-end scenario of the specification: t1 exists, the input
    completes t1 and introduces t2. *)
Example reconcile_end_to_end :
  let w0 := (ProjectState.add_task "20260213_115900" "t1" PNone (PStr "scaffold project")
               (initial_world sample_store_no_tasks sample_clock)).2 in
  let w1 := (CoordinatorAgent.sync_tasks_from_json true
               (JList [JObject {[ "id" := PStr "t1"; "status" := PStr "completed" ]};
                       JObject {[ "id" := PStr "t2"; "subject" := PStr "write tests" ]}])
               w0).2 in
  (fun r => (Tasks.task_id r, Tasks.status r, Tasks.completed_at r)) <$> tasks (db w1)
  = [("t1", Some "completed", Some "2026-02-13T12:00:01");
     ("t2", Some "pending", None)]
  /\ out w1 = [MsgSyncedUpdate "t1" "completed"; MsgSyncedTask "t2"; MsgSyncedNew 1].
Proof. by vm_compute. Qed.

(** * Further properties of the store and of the sync utilities *)

(** ** The most recent session *)

Lemma ltb_false_le (a b : string) : String.ltb a b = false -> String.le b a.
Proof.
  unfold String.ltb, String.le, String.leb. rewrite (String.compare_antisym a b).
  by destruct (String.compare b a).
Qed.

Lemma ltb_true_le (a b : string) : String.ltb a b = true -> String.le a b.
Proof.
  unfold String.ltb, String.le, String.leb. by destruct (String.compare a b).
Qed.

Lemma latest_session_row_greatest l r :
  latest_session_row l = Some r ->
  forall r', r' ∈ l -> String.le (Sessions.created_at r') (Sessions.created_at r).
Proof.
  revert r. induction l as [|x l IH]; intros r; simpl; [done|].
  destruct (latest_session_row l) as [m|] eqn:E.
  - destruct (String.ltb (Sessions.created_at x) (Sessions.created_at m)) eqn:Hlt;
      intros [= <-] r' Hr'; apply elem_of_cons in Hr' as [->|Hr'].
    + by apply ltb_true_le.
    + by apply IH.
    + done.
    + etrans; [by apply (IH m)|]. by apply ltb_false_le.
  - apply latest_session_row_none in E. subst l.
    intros [= <-] r' Hr'. apply list_elem_of_singleton in Hr'. by subst r'.
Qed.

(** [TaskSync.get_session_id] and the default of [create_task] and
    [sync_agent]: the answer is [None] exactly on an empty sessions table,
    and otherwise the id of a session no other session was created after. *)
Theorem get_session_id_is_most_recent (w : world) :
  (TaskSync.get_session_id w).2 = w
  /\ ((TaskSync.get_session_id w).1 = Ok None <-> sessions (db w) = [])
  /\ (forall sid, (TaskSync.get_session_id w).1 = Ok (Some sid) ->
        exists r, r ∈ sessions (db w) /\ Sessions.session_id r = sid
                  /\ forall r', r' ∈ sessions (db w) ->
                       String.le (Sessions.created_at r') (Sessions.created_at r)).
Proof.
  unfold TaskSync.get_session_id, query, select_latest_session. cbn [fst snd].
  split; [done|]. split.
  - split.
    + intros [= H]. destruct (latest_session_row (sessions (db w))) eqn:E; [done|].
      by apply latest_session_row_none.
    + by intros ->.
  - intros sid [= H].
    destruct (latest_session_row (sessions (db w))) as [r|] eqn:E; [|done].
    injection H as <-. exists r. split; [by apply latest_session_row_in|].
    split; [done|]. by apply latest_session_row_greatest.
Qed.

(** ** [create_task] *)

Lemma bound_ok v c w : sqlite_bind v = Some c -> bound v w = (Ok c, w).
Proof. unfold bound. by intros ->. Qed.

Lemma bound_fail v w : sqlite_bind v = None -> bound v w = (Raise OverflowError, w).
Proof. unfold bound. by intros ->. Qed.

(** [create_task] is all or nothing.  It raises exactly when the session id
    given (if truthy), the agent role or the description cannot be bound, and
    then the database is as before.  Otherwise it appends one row: the task
    id as given, status 'pending', no completion time, under the session id
    given or else the most recent session (or else a stamp of the clock);
    every other row and table is unchanged. *)
Theorem create_task_all_or_nothing
    (tid : string) (description agent_role session_id : pyval) (w : world) :
  let call := TaskSync.create_task tid description agent_role session_id in
  let ok := (negb (truthy session_id) || bindable session_id)
            && bindable agent_role && bindable description in
  (ok = false -> (call w).1 = Raise OverflowError /\ db_after call w = db w)
  /\ (ok = true ->
      (call w).1 = Ok tt
      /\ exists r,
           db_after call w
           = with_tasks (db w) (tasks (db w) ++ [r]) (tasks_seq (db w) + 1)
           /\ Tasks.id r = tasks_seq (db w) + 1
           /\ Tasks.task_id r = tid
           /\ Tasks.status r = Some "pending"
           /\ Tasks.completed_at r = None
           /\ sqlite_bind agent_role = Some (Tasks.agent_role r)
           /\ sqlite_bind description = Some (Tasks.description r)
           /\ (truthy session_id = true ->
               sqlite_bind session_id = Some (Some (Tasks.session_id r)))
           /\ (truthy session_id = false ->
               Tasks.session_id r
               = default (strftime (clock w (reads w))) (select_latest_session (db w)))).
Proof.
  intros call ok. unfold call, ok, db_after, bindable, TaskSync.create_task,
    mbind, M_bind, mret, M_ret, query, now, execute, print, bound_not_null, bound,
    insert_task.
  destruct (truthy session_id) eqn:Hts; cbn [negb orb andb].
  - destruct (sqlite_bind session_id) as [[sid|]|] eqn:Hs; cbn.
    + destruct (sqlite_bind agent_role) as [cr|]; cbn;
        destruct (sqlite_bind description) as [cd|]; cbn; split; try done.
      intros _. split; [done|]. eexists. split; [reflexivity|]. by repeat split.
    + by destruct (truthy_bound_text _ _ Hts Hs) as (t & ? & _).
    + split; [done|]. intros H. by destruct (sqlite_bind agent_role).
  - destruct (select_latest_session (db w)) as [sid|]; cbn;
      destruct (sqlite_bind agent_role) as [cr|]; cbn;
      destruct (sqlite_bind description) as [cd|]; cbn; split; try done;
      intros _; (split; [done|]); eexists; (split; [reflexivity|]); by repeat split.
Qed.

Lemma create_task_all_or_nothing_witness :
  (TaskSync.create_task "task-002" (PStr "Write tests") (PInt (2 ^ 63)) PNone
     (initial_world sample_store sample_clock)).1 = Raise OverflowError
  /\ db_after (TaskSync.create_task "task-002" (PStr "Write tests") (PInt (2 ^ 63)) PNone)
       (initial_world sample_store sample_clock)
     = sample_store.
Proof.
  apply (create_task_all_or_nothing "task-002" (PStr "Write tests") (PInt (2 ^ 63)) PNone
           (initial_world sample_store sample_clock)).
  reflexivity.
Defined.

Lemma get_session_id_is_most_recent_witness :
  exists r, r ∈ sessions two_session_store
            /\ Sessions.session_id r = "20260213_090000"
            /\ forall r', r' ∈ sessions two_session_store ->
                 String.le (Sessions.created_at r') (Sessions.created_at r).
Proof.
  apply (get_session_id_is_most_recent (initial_world two_session_store sample_clock)).
  reflexivity.
Defined.

(** ** Sessions: [create_session], [get_session_info], [set_phase] *)

Lemma session_filter_nil st sid :
  session_exists st sid = false ->
  List.filter (fun r => String.eqb (Sessions.session_id r) sid) (sessions st) = [].
Proof.
  unfold session_exists. induction (sessions st) as [|r l IH]; simpl; [done|].
  destruct (String.eqb (Sessions.session_id r) sid); [done|]. exact IH.
Qed.

Lemma select_session_none st sid :
  select_session sid st = None <-> session_exists st sid = false.
Proof.
  unfold select_session, session_exists.
  induction (sessions st) as [|r l IH]; simpl; [done|].
  by destruct (String.eqb (Sessions.session_id r) sid).
Qed.

Lemma select_session_some st sid r :
  select_session sid st = Some r -> r ∈ sessions st /\ Sessions.session_id r = sid.
Proof.
  unfold select_session.
  induction (sessions st) as [|x l IH]; simpl; [done|].
  destruct (String.eqb (Sessions.session_id x) sid) eqn:E.
  - intros [= <-]. split; [by left|by apply String.eqb_eq].
  - intros H. destruct (IH H). split; [by right|done].
Qed.

(** [get_session_info] reads only, and answers the empty dict exactly when
    no session row has the handle's session id (the test on which resuming a
    session is refused); otherwise the dict holds the goal, the phase and
    the creation time of a row with that id. *)
Theorem get_session_info_empty_iff_unknown (sid : string) (w : world) :
  (ProjectState.get_session_info sid w).2 = w
  /\ ((ProjectState.get_session_info sid w).1 = Ok ∅ <-> session_exists (db w) sid = false)
  /\ (session_exists (db w) sid = true ->
      exists r, r ∈ sessions (db w) /\ Sessions.session_id r = sid
                /\ (ProjectState.get_session_info sid w).1
                   = Ok {[ "project_goal" := PStr (Sessions.project_goal r);
                           "current_phase" := ProjectState.text_value (Sessions.current_phase r);
                           "created_at" := PStr (Sessions.created_at r) ]}).
Proof.
  unfold ProjectState.get_session_info, mbind, M_bind, mret, M_ret, query.
  destruct (select_session sid (db w)) as [r|] eqn:E; cbn [fst snd].
  - destruct (select_session_some _ _ _ E) as [Hin Hid].
    split; [done|]. split.
    + split.
      * intros [= H].
      * intros H. apply select_session_none in H. congruence.
    + intros _. by exists r.
  - apply select_session_none in E. split; [done|]. split; [done|]. congruence.
Qed.

Lemma get_session_info_empty_iff_unknown_witness :
  exists r, r ∈ sessions sample_store /\ Sessions.session_id r = "20260213_115900"
            /\ (ProjectState.get_session_info "20260213_115900"
                  (initial_world sample_store sample_clock)).1
               = Ok {[ "project_goal" := PStr (Sessions.project_goal r);
                       "current_phase" := ProjectState.text_value (Sessions.current_phase r);
                       "created_at" := PStr (Sessions.created_at r) ]}.
Proof.
  apply (get_session_info_empty_iff_unknown "20260213_115900"
           (initial_world sample_store sample_clock)).
  reflexivity.
Defined.

Lemma select_session_app_new st sid r :
  session_exists st sid = false -> Sessions.session_id r = sid ->
  head (List.filter (fun x => String.eqb (Sessions.session_id x) sid) (sessions st ++ [r]))
  = Some r.
Proof.
  intros Hno Hr. rewrite List.filter_app, (session_filter_nil _ _ Hno). simpl.
  by rewrite Hr, String.eqb_refl.
Qed.

(** [create_session] and the primary key of sessions.  With a fresh session
    id the call appends one session row and [get_session_info] then answers
    the goal given, the phase 'initialization' and the creation time read
    from the clock; with a session id already in the table the INSERT is
    rejected: the call raises and the database is as before. *)
Theorem create_session_then_get_session_info (sid goal : string) (w : world) :
  let call := ProjectState.create_session sid goal in
  let w1 := (call w).2 in
  (session_exists (db w) sid = false ->
   (call w).1 = Ok tt
   /\ sessions (db w1)
      = sessions (db w)
        ++ [Sessions.mk sid (isoformat (clock w (reads w))) goal (Some "initialization")]
   /\ ProjectState.get_session_info sid w1
      = (Ok {[ "project_goal" := PStr goal;
               "current_phase" := PStr "initialization";
               "created_at" := PStr (isoformat (clock w (reads w))) ]}, w1)
   /\ agents (db w1) = agents (db w) /\ tasks (db w1) = tasks (db w)
   /\ reports (db w1) = reports (db w))
  /\ (session_exists (db w) sid = true ->
      (call w).1 = Raise IntegrityError /\ db w1 = db w).
Proof.
  intros call w1. unfold w1, call, ProjectState.create_session, mbind, M_bind, now,
    execute_checked, insert_session. cbn [db].
  split; intros H; rewrite H; cbn [fst snd db]; [|done].
  split; [done|]. split; [done|]. split; [|done].
  unfold ProjectState.get_session_info, mbind, M_bind, mret, M_ret, query, select_session.
  cbn [db sessions with_sessions].
  by rewrite (select_session_app_new (db w) sid _ H).
Qed.

Lemma create_session_then_get_session_info_witness :
  (ProjectState.create_session "20260213_115900" "Build a todo app"
     (initial_world sample_store sample_clock)).1 = Raise IntegrityError
  /\ db (ProjectState.create_session "20260213_115900" "Build a todo app"
           (initial_world sample_store sample_clock)).2 = sample_store.
Proof.
  apply (create_session_then_get_session_info "20260213_115900" "Build a todo app"
           (initial_world sample_store sample_clock)).
  reflexivity.
Defined.

Lemma with_sessions_same st : with_sessions st (sessions st) = st.
Proof. by destruct st. Qed.

Lemma phase_filter_map sid sid' phase (l : list Sessions.row) :
  List.filter (fun r => String.eqb (Sessions.session_id r) sid')
    (map (fun r => if String.eqb (Sessions.session_id r) sid
                   then set_current_phase phase r else r) l)
  = map (fun r => if String.eqb (Sessions.session_id r) sid
                  then set_current_phase phase r else r)
      (List.filter (fun r => String.eqb (Sessions.session_id r) sid') l).
Proof.
  induction l as [|r l IH]; simpl; [done|].
  destruct (String.eqb (Sessions.session_id r) sid) eqn:E; simpl;
    destruct (String.eqb (Sessions.session_id r) sid'); simpl; rewrite ?E; simpl;
    by f_equal.
Qed.

Lemma select_session_after_phase sid sid' phase st :
  select_session sid' (update_session_phase phase sid st)
  = (fun r => if String.eqb (Sessions.session_id r) sid
              then set_current_phase phase r else r) <$> select_session sid' st.
Proof.
  unfold select_session, update_session_phase. cbn [sessions with_sessions].
  rewrite phase_filter_map.
  by destruct (List.filter _ (sessions st)).
Qed.

(** [set_phase] overwrites the phase of the handle's session and nothing
    else: afterwards [get_session_info] for that session answers the new
    phase with the goal and creation time it had, for any other session it
    answers what it answered before, and agents, tasks and reports are
    untouched.  Any string is accepted, and on a session id that is not in
    the table the call changes nothing and does not raise. *)
Theorem set_phase_then_get_session_info (sid phase : string) (w : world) :
  let w1 := (ProjectState.set_phase sid phase w).2 in
  (ProjectState.set_phase sid phase w).1 = Ok tt
  /\ agents (db w1) = agents (db w) /\ tasks (db w1) = tasks (db w)
  /\ reports (db w1) = reports (db w)
  /\ (session_exists (db w) sid = false -> w1 = w)
  /\ (forall r, select_session sid (db w) = Some r ->
        (ProjectState.get_session_info sid w1).1
        = Ok {[ "project_goal" := PStr (Sessions.project_goal r);
                "current_phase" := PStr phase;
                "created_at" := PStr (Sessions.created_at r) ]})
  /\ (forall sid', sid' <> sid ->
        (ProjectState.get_session_info sid' w1).1
        = (ProjectState.get_session_info sid' w).1).
Proof.
  intros w1. unfold w1, ProjectState.set_phase, execute. cbn [fst snd db].
  split; [done|]. split; [done|]. split; [done|]. split; [done|].
  split; [|split].
  - intros Hno. destruct w as [st clk n o]. cbn [db clock reads out] in *. f_equal.
    unfold update_session_phase.
    assert (E : map (fun r => if String.eqb (Sessions.session_id r) sid
                              then set_current_phase (Some phase) r else r) (sessions st)
                = sessions st).
    { unfold session_exists in Hno. induction (sessions st) as [|r l IH]; [done|].
      simpl in *. destruct (String.eqb (Sessions.session_id r) sid); [done|].
      f_equal. by apply IH. }
    rewrite E. apply with_sessions_same.
  - intros r Hr.
    unfold ProjectState.get_session_info, mbind, M_bind, mret, M_ret, query. cbn [db].
    rewrite select_session_after_phase, Hr. cbn.
    destruct (select_session_some _ _ _ Hr) as [_ ->]. by rewrite String.eqb_refl.
  - intros sid' Hne.
    unfold ProjectState.get_session_info, mbind, M_bind, mret, M_ret, query. cbn [db].
    rewrite select_session_after_phase.
    destruct (select_session sid' (db w)) as [r|] eqn:Hr; [|done]. cbn.
    destruct (select_session_some _ _ _ Hr) as [_ Hid].
    destruct (String.eqb (Sessions.session_id r) sid) eqn:E; [|done].
    apply String.eqb_eq in E. congruence.
Qed.

Lemma set_phase_then_get_session_info_witness :
  (ProjectState.get_session_info "20260213_115900"
     (ProjectState.set_phase "20260213_115900" "quality_check"
        (initial_world sample_store sample_clock)).2).1
  = Ok {[ "project_goal" := PStr "Build a todo app";
          "current_phase" := PStr "quality_check";
          "created_at" := PStr "2026-02-13T11:59:00" ]}.
Proof.
  pose proof (set_phase_then_get_session_info "20260213_115900" "quality_check"
                (initial_world sample_store sample_clock)) as (_ & _ & _ & _ & _ & H & _).
  apply (H (Sessions.mk "20260213_115900" "2026-02-13T11:59:00" "Build a todo app"
              (Some "implementation"))).
  reflexivity.
Defined.

(** ** Agents: [get_active_agents], [add_agent], [update_agent_status], [sync_agent] *)

Lemma elem_of_active_roles sid st role :
  role ∈ select_active_roles sid st
  <-> exists r, r ∈ agents st /\ Agents.session_id r = sid /\ Agents.role r = role
                /\ Agents.status r = Some "active".
Proof.
  unfold select_active_roles. rewrite elem_of_remove_dups, list_elem_of_fmap.
  split.
  - intros (r & -> & Hr). apply list_elem_of_In, filter_In in Hr as [Hin Hc].
    apply andb_true_iff in Hc as [H1 H2].
    exists r. split; [by apply list_elem_of_In|].
    split; [by apply String.eqb_eq|]. split; [done|by apply sql_eq_true].
  - intros (r & Hin & Hs & Hr & Ha). exists r. split; [done|].
    apply list_elem_of_In, filter_In. split; [by apply list_elem_of_In|].
    apply andb_true_iff. split; [by apply String.eqb_eq|by apply sql_eq_true].
Qed.

(** [get_active_agents] reads only and answers each role once: a role is in
    the answer exactly when some agent row of the handle's session has that
    role and status 'active'. *)
Theorem get_active_agents_distinct_active_roles (sid : string) (w : world) :
  exists roles,
    ProjectState.get_active_agents sid w = (Ok roles, w)
    /\ NoDup roles
    /\ forall role,
         role ∈ roles
         <-> exists r, r ∈ agents (db w) /\ Agents.session_id r = sid
                       /\ Agents.role r = role /\ Agents.status r = Some "active".
Proof.
  exists (select_active_roles sid (db w)). split; [done|].
  split; [apply NoDup_remove_dups|]. intros role. apply elem_of_active_roles.
Qed.

(** [add_agent] with an agent id that is a string or [None] appends one
    agent row with status 'active' under the handle's session, so the role
    is among the active roles of that session afterwards; no role active
    before is lost, and the active roles of every other session are the
    same list as before. *)
Theorem add_agent_makes_role_active
    (sid role : string) (agent_id : option string) (w : world) :
  let call := ProjectState.add_agent sid role (py_opt agent_id) in
  (call w).1 = Ok tt
  /\ agents (db_after call w)
     = agents (db w)
       ++ [Agents.mk (agents_seq (db w) + 1) sid role agent_id
             (isoformat (clock w (reads w))) (Some "active")]
  /\ role ∈ select_active_roles sid (db_after call w)
  /\ (forall role', role' ∈ select_active_roles sid (db w) ->
                    role' ∈ select_active_roles sid (db_after call w))
  /\ (forall sid', sid' <> sid ->
        select_active_roles sid' (db_after call w) = select_active_roles sid' (db w)).
Proof.
  intros call.
  assert (E : agents (db_after call w)
              = agents (db w)
                ++ [Agents.mk (agents_seq (db w) + 1) sid role agent_id
                      (isoformat (clock w (reads w))) (Some "active")]).
  { unfold call. by destruct agent_id. }
  split; [unfold call; by destruct agent_id|]. split; [exact E|].
  split; [|split].
  - apply elem_of_active_roles. eexists. split; [rewrite E; apply elem_of_app; right; by left|].
    done.
  - intros role' H. apply elem_of_active_roles in H as (r & Hin & ?).
    apply elem_of_active_roles. exists r. split; [|done].
    rewrite E. apply elem_of_app. by left.
  - intros sid' Hne. unfold select_active_roles. rewrite E, List.filter_app. simpl.
    destruct (String.eqb sid sid') eqn:Es.
    + apply String.eqb_eq in Es. congruence.
    + simpl. by rewrite app_nil_r.
Qed.

Lemma update_agent_status_by_agent_id_rows agent_id status w :
  exists g : Agents.row -> Agents.row,
    agents (db (SyncAgentToDb.update_agent_status true agent_id status w).2)
    = g <$> agents (db w)
    /\ forall r,
         (Agents.agent_id r = Some agent_id ->
          Agents.status (g r) = Some status /\ Agents.session_id (g r) = Agents.session_id r
          /\ Agents.role (g r) = Agents.role r)
         /\ (Agents.agent_id r <> Some agent_id -> g r = r).
Proof.
  exists (fun r => if sql_eq (Agents.agent_id r) agent_id
                   then set_agent_status (Some status) r else r).
  split.
  - unfold SyncAgentToDb.update_agent_status, mbind, M_bind, mret, M_ret, query, execute,
      print, update_agents. cbn [negb fst snd].
    set (hit := List.filter (fun r => sql_eq (Agents.agent_id r) agent_id) (agents (db w))).
    destruct (0 <? length hit)%nat eqn:Hhit; cbn; [done|].
    assert (Hnil : hit = []) by (destruct hit; [done|by simpl in Hhit]).
    symmetry. clear Hhit. revert Hnil. unfold hit.
    induction (agents (db w)) as [|r l IH]; simpl; [done|].
    destruct (sql_eq (Agents.agent_id r) agent_id); [done|].
    intros Hl. f_equal. by apply IH.
  - intros r. destruct (sql_eq (Agents.agent_id r) agent_id) eqn:E.
    + apply sql_eq_true in E. split; [done|]. by intros [].
    + split; [|done]. intros E'. apply sql_eq_true in E'. congruence.
Qed.

(** Retiring an agent: after [update_agent_status] with a status other than
    'active', a role is active in a session exactly when an agent row of
    that session had the role and status 'active' under another agent id (or
    none). *)
Theorem update_agent_status_retires_role
    (agent_id status sid role : string) (w : world) :
  status <> "active" ->
  let w1 := (SyncAgentToDb.update_agent_status true agent_id status w).2 in
  role ∈ select_active_roles sid (db w1)
  <-> exists r, r ∈ agents (db w) /\ Agents.session_id r = sid /\ Agents.role r = role
                /\ Agents.status r = Some "active"
                /\ Agents.agent_id r <> Some agent_id.
Proof.
  intros Hs w1.
  destruct (update_agent_status_by_agent_id_rows agent_id status w) as [g [Hag Hg]].
  fold w1 in Hag. rewrite elem_of_active_roles, Hag. split.
  - intros (r' & Hin & H1 & H2 & H3).
    apply list_elem_of_fmap in Hin as (r & -> & Hin).
    destruct (Hg r) as [Hhit Hmiss].
    destruct (decide (Agents.agent_id r = Some agent_id)) as [E|E].
    + destruct (Hhit E) as (Hst & _). rewrite Hst in H3. congruence.
    + rewrite (Hmiss E) in *. by exists r.
  - intros (r & Hin & H1 & H2 & H3 & H4). exists r. split; [|done].
    apply list_elem_of_fmap. exists r. split; [|done].
    symmetry. by apply Hg.
Qed.

Lemma update_agent_status_retires_role_witness :
  "tester" ∈ select_active_roles "20260213_115900"
               (db (SyncAgentToDb.update_agent_status true "tester_001" "retired"
                      (initial_world staffed_store sample_clock)).2)
  <-> exists r, r ∈ agents staffed_store /\ Agents.session_id r = "20260213_115900"
                /\ Agents.role r = "tester" /\ Agents.status r = Some "active"
                /\ Agents.agent_id r <> Some "tester_001".
Proof.
  apply (update_agent_status_retires_role "tester_001" "retired" "20260213_115900" "tester"
           (initial_world staffed_store sample_clock)).
  discriminate.
Defined.

(** [sync_agent] on an existing database, with a session id that is a string
    or [None]: the call never raises, returns [True] and appends exactly one
    agent row with the role, agent id and status given.  The row goes under
    the session id given when that is a non-empty string; otherwise under
    the most recent session; otherwise, on an empty sessions table, under a
    session the call inserts first, with goal 'Autonomous Project' and phase
    'implementation'.  Tasks and reports are untouched. *)
Theorem sync_agent_appends_one_agent
    (role agent_id status : string) (session_id : option string) (w : world) :
  let call := SyncAgentToDb.sync_agent true role agent_id (py_opt session_id) status in
  let st' := db_after call w in
  (call w).1 = Ok true
  /\ tasks st' = tasks (db w) /\ reports st' = reports (db w)
  /\ exists r,
       agents st' = agents (db w) ++ [r]
       /\ Agents.id r = agents_seq (db w) + 1
       /\ Agents.role r = role /\ Agents.agent_id r = Some agent_id
       /\ Agents.status r = Some status
       /\ (forall s, session_id = Some s -> s <> "" ->
             Agents.session_id r = s /\ sessions st' = sessions (db w))
       /\ (session_id = None \/ session_id = Some "" ->
           match select_latest_session (db w) with
           | Some s => Agents.session_id r = s /\ sessions st' = sessions (db w)
           | None =>
               sessions st'
               = [Sessions.mk (Agents.session_id r) (isoformat (clock w (S (reads w))))
                    "Autonomous Project" (Some "implementation")]
           end).
Proof.
  intros call st'. unfold st', call, db_after, SyncAgentToDb.sync_agent, mbind, M_bind,
    mret, M_ret, query, now, execute, execute_checked, print, bound_not_null, bound,
    insert_agent, insert_session.
  cbn [negb].
  destruct session_id as [s|]; cbn [py_opt truthy].
  - destruct (String.eqb s "") eqn:Es; cbn [negb].
    + apply String.eqb_eq in Es.
      destruct (select_latest_session (db w)) as [s0|] eqn:El; cbn.
      * split; [done|]. split; [done|]. split; [done|].
        eexists. split; [reflexivity|]. repeat split; try done; cbn; congruence.
      * unfold select_latest_session in El.
        destruct (latest_session_row (sessions (db w))) eqn:E; [done|].
        apply latest_session_row_none in E. unfold session_exists. rewrite E. cbn.
        unfold mbind, M_bind, mret, M_ret. cbn.
        split; [done|]. split; [done|]. split; [done|].
        eexists. split; [reflexivity|]. repeat split; try done; cbn; congruence.
    + cbn. split; [done|]. split; [done|]. split; [done|].
      eexists. split; [reflexivity|]. repeat split; try done; try (cbn; congruence).
      intros [?|[= ->]]; [done|]. by rewrite String.eqb_refl in Es.
  - destruct (select_latest_session (db w)) as [s0|] eqn:El; cbn.
    + split; [done|]. split; [done|]. split; [done|].
      eexists. split; [reflexivity|]. by repeat split.
    + unfold select_latest_session in El.
      destruct (latest_session_row (sessions (db w))) eqn:E; [done|].
      apply latest_session_row_none in E. unfold session_exists. rewrite E. cbn.
      unfold mbind, M_bind, mret, M_ret. cbn.
      split; [done|]. split; [done|]. split; [done|].
      eexists. split; [reflexivity|]. by repeat split.
Qed.

Lemma sync_agent_keeps_referential_integrity_witness :
  referential_integrity
    (db_after (SyncAgentToDb.sync_agent true "builder" "builder_001" PNone "active")
       (initial_world empty_store sample_clock)).
Proof.
  apply (sync_agent_keeps_referential_integrity "builder" "builder_001" "active"
           (initial_world empty_store sample_clock)).
  repeat split; intros r Hr; by apply not_elem_of_nil in Hr.
Defined.

(** ** The dashboard's listings *)

#[local] Instance sessions_desc_trans : Transitive sessions_desc.
Proof. intros x y z Hxy Hyz. unfold sessions_desc in *. by etrans. Qed.

#[local] Instance sessions_desc_total : Total sessions_desc.
Proof. intros x y. unfold sessions_desc. apply (total String.le). Qed.

#[local] Instance tasks_desc_trans : Transitive tasks_desc.
Proof. intros x y z Hxy Hyz. unfold tasks_desc in *. by etrans. Qed.

#[local] Instance tasks_desc_total : Total tasks_desc.
Proof. intros x y. unfold tasks_desc. apply (total String.le). Qed.

#[local] Instance agents_desc_trans : Transitive agents_desc.
Proof. intros x y z Hxy Hyz. unfold agents_desc in *. by etrans. Qed.

#[local] Instance agents_desc_total : Total agents_desc.
Proof. intros x y. unfold agents_desc. apply (total String.le). Qed.

(** [get_all_tasks] with a session id that is a string or [None] reads only
    and never raises.  With a non-empty session id the answer holds exactly
    the task rows of that session, each as often as the table does; with
    [None] or the empty string it holds every task row.  In both cases a row
    never comes before one created later. *)
Theorem get_all_tasks_lists_session_latest_first (session_id : option string) (w : world) :
  exists rows,
    WebProjectState.get_all_tasks (py_opt session_id) w = (Ok rows, w)
    /\ StronglySorted tasks_desc rows
    /\ (forall s, session_id = Some s -> s <> "" ->
          rows ≡ₚ List.filter (fun r => String.eqb (Tasks.session_id r) s) (tasks (db w)))
    /\ (session_id = None \/ session_id = Some "" -> rows ≡ₚ tasks (db w)).
Proof.
  unfold WebProjectState.get_all_tasks.
  destruct session_id as [s|]; cbn [py_opt truthy].
  - destruct (String.eqb s "") eqn:Es; cbn [negb].
    + apply String.eqb_eq in Es. subst s.
      exists (select_tasks None (db w)). split; [done|].
      split; [apply StronglySorted_merge_sort; apply _|].
      split; [by intros s [= <-] Hs|]. intros _. apply merge_sort_Permutation.
    + exists (select_tasks (Some (Some s)) (db w)). split; [done|].
      split; [apply StronglySorted_merge_sort; apply _|]. split.
      * intros s' [= <-] _. unfold select_tasks. rewrite merge_sort_Permutation.
        assert (E : forall l : list Tasks.row,
                  List.filter (fun r => sql_eq (Some s) (Tasks.session_id r)) l
                  = List.filter (fun r => String.eqb (Tasks.session_id r) s) l).
        { intros l. apply filter_ext. intros r. apply String.eqb_sym. }
        by rewrite E.
      * intros [?|[= ->]]; [done|]. by rewrite String.eqb_refl in Es.
  - exists (select_tasks None (db w)). split; [done|].
    split; [apply StronglySorted_merge_sort; apply _|].
    split; [done|]. intros _. apply merge_sort_Permutation.
Qed.

(** [get_all_sessions] and [get_all_agents] read only; the answer holds the
    rows of the table (for agents with a non-empty session id: those of that
    session), each as often as the table does, latest first. *)
Theorem get_all_sessions_and_agents_latest_first (session_id : option string) (w : world) :
  (exists rows,
     WebProjectState.get_all_sessions w = (Ok rows, w)
     /\ StronglySorted sessions_desc rows /\ rows ≡ₚ sessions (db w))
  /\ (exists rows,
        WebProjectState.get_all_agents (py_opt session_id) w = (Ok rows, w)
        /\ StronglySorted agents_desc rows
        /\ (forall s, session_id = Some s -> s <> "" ->
              rows ≡ₚ List.filter (fun r => String.eqb (Agents.session_id r) s)
                        (agents (db w)))
        /\ (session_id = None \/ session_id = Some "" -> rows ≡ₚ agents (db w))).
Proof.
  split.
  { exists (select_sessions (db w)). split; [done|].
    split; [apply StronglySorted_merge_sort; apply _|apply merge_sort_Permutation]. }
  unfold WebProjectState.get_all_agents.
  destruct session_id as [s|]; cbn [py_opt truthy].
  - destruct (String.eqb s "") eqn:Es; cbn [negb].
    + apply String.eqb_eq in Es. subst s.
      exists (select_agents None (db w)). split; [done|].
      split; [apply StronglySorted_merge_sort; apply _|].
      split; [by intros s [= <-] Hs|]. intros _. apply merge_sort_Permutation.
    + exists (select_agents (Some (Some s)) (db w)). split; [done|].
      split; [apply StronglySorted_merge_sort; apply _|]. split.
      * intros s' [= <-] _. unfold select_agents. rewrite merge_sort_Permutation.
        assert (E : forall l : list Agents.row,
                  List.filter (fun r => sql_eq (Some s) (Agents.session_id r)) l
                  = List.filter (fun r => String.eqb (Agents.session_id r) s) l).
        { intros l. apply filter_ext. intros r. apply String.eqb_sym. }
        by rewrite E.
      * intros [?|[= ->]]; [done|]. by rewrite String.eqb_refl in Es.
  - exists (select_agents None (db w)). split; [done|].
    split; [apply StronglySorted_merge_sort; apply _|].
    split; [done|]. intros _. apply merge_sort_Permutation.
Qed.

Example get_all_tasks_on_two_sessions :
  (WebProjectState.get_all_tasks PNone (initial_world two_session_store sample_clock)).1
  = Ok [Tasks.mk 2 "20260213_090000" "1" (Some "planner") (Some "draft outline")
          (Some "pending") "2026-02-13T09:05:00" None;
        Tasks.mk 1 "20260212_090000" "1" (Some "builder") (Some "scaffold project")
          (Some "pending") "2026-02-12T09:05:00" None].
Proof. by vm_compute. Qed.

(** ** What the task operations keep *)

(** The three shapes a task operation can give the tasks table. *)
Lemma run_op_shape (o : op) (w : world) :
  let st := db w in
  let st' := db (run_op o w).2 in
  sessions st' = sessions st /\ agents st' = agents st /\ agents_seq st' = agents_seq st
  /\ reports st' = reports st /\ reports_seq st' = reports_seq st
  /\ ((exists r, tasks st' = tasks st ++ [r] /\ Tasks.id r = tasks_seq st + 1
                 /\ tasks_seq st' = tasks_seq st + 1)
      \/ (exists f, tasks st' = map f (tasks st) /\ (forall r, Tasks.id (f r) = Tasks.id r)
                    /\ tasks_seq st' = tasks_seq st)
      \/ (exists p, tasks st' = List.filter p (tasks st) /\ tasks_seq st' = tasks_seq st)).
Proof.
  assert (Hsame : forall st st' : store, st' = st ->
    sessions st' = sessions st /\ agents st' = agents st /\ agents_seq st' = agents_seq st
    /\ reports st' = reports st /\ reports_seq st' = reports_seq st
    /\ ((exists r, tasks st' = tasks st ++ [r] /\ Tasks.id r = tasks_seq st + 1
                   /\ tasks_seq st' = tasks_seq st + 1)
        \/ (exists f, tasks st' = map f (tasks st)
                      /\ (forall r, Tasks.id (f r) = Tasks.id r)
                      /\ tasks_seq st' = tasks_seq st)
        \/ (exists p, tasks st' = List.filter p (tasks st)
                      /\ tasks_seq st' = tasks_seq st))).
  { intros st st' ->. repeat split. right. left. exists (fun r => r).
    by rewrite map_id. }
  assert (Hupd : forall tid s a d,
    let st := db w in
    let st' := db (TaskSync.update_task tid s a d w).2 in
    sessions st' = sessions st /\ agents st' = agents st /\ agents_seq st' = agents_seq st
    /\ reports st' = reports st /\ reports_seq st' = reports_seq st
    /\ ((exists r, tasks st' = tasks st ++ [r] /\ Tasks.id r = tasks_seq st + 1
                   /\ tasks_seq st' = tasks_seq st + 1)
        \/ (exists f, tasks st' = map f (tasks st)
                      /\ (forall r, Tasks.id (f r) = Tasks.id r)
                      /\ tasks_seq st' = tasks_seq st)
        \/ (exists p, tasks st' = List.filter p (tasks st)
                      /\ tasks_seq st' = tasks_seq st))).
  { intros tid s a d st st'.
    destruct (update_task_other_tables tid s a d w) as (? & ? & ? & Hseq & ? & ?).
    do 5 (split; [done|]). right. left.
    eexists. split; [apply update_task_tasks|]. split; [|done].
    intros r. destruct (matches_task_id tid r); [|done].
    unfold updated_row. by destruct (params_ok s a d). }
  destruct o as [sid tid role descr|sid tid role descr s|tid descr role s
                 |tid s a d|tid s a d|sid tid|tid|tid]; cbn [run_op]; cbv zeta.
  - unfold ProjectState.add_task, mbind, M_bind, mret, M_ret, now, execute, bound,
      insert_task.
    destruct (sqlite_bind role); cbn; [|by apply Hsame].
    destruct (sqlite_bind descr); cbn; [|by apply Hsame].
    repeat split. left. by eexists.
  - unfold WebProjectState.add_task, mbind, M_bind, mret, M_ret, now, execute,
      bound_not_null, bound, insert_task.
    destruct (sqlite_bind (py_or s (PStr sid))) as [[c|]|]; cbn; try by apply Hsame.
    unfold mbind, M_bind, mret, M_ret.
    destruct (sqlite_bind role); cbn; [|by apply Hsame].
    destruct (sqlite_bind descr); cbn; [|by apply Hsame].
    repeat split. left. by eexists.
  - destruct (create_task_all_or_nothing tid descr role s w) as [Hbad Hok].
    destruct ((negb (truthy s) || bindable s) && bindable role && bindable descr).
    + destruct (Hok eq_refl) as (_ & r & E & Hid & _). unfold db_after in E.
      rewrite E. repeat split. left. by exists r.
    + destruct (Hbad eq_refl) as [_ E]. by apply Hsame.
  - apply Hupd.
  - rewrite web_update_task_db. apply Hupd.
  - repeat split. right. left. eexists. split; [apply complete_task_tasks|].
    split; [|done]. intros r. by destruct (_ && _).
  - repeat split. right. right. by eexists.
  - repeat split. right. right. by eexists.
Qed.

Lemma run_ops_cons o ops w : run_ops (o :: ops) w = run_ops ops (run_op o w).2.
Proof. reflexivity. Qed.

(** No add, create, update, complete or delete call on tasks, in any
    sequence and whether or not some of the calls raise, changes the
    sessions, agents or reports table. *)
Theorem task_operations_leave_other_tables (ops : list op) (w : world) :
  let st' := db (run_ops ops w) in
  sessions st' = sessions (db w) /\ agents st' = agents (db w)
  /\ agents_seq st' = agents_seq (db w)
  /\ reports st' = reports (db w) /\ reports_seq st' = reports_seq (db w).
Proof.
  revert w. induction ops as [|o ops IH]; intros w; [done|].
  rewrite run_ops_cons. cbv zeta.
  destruct (IH (run_op o w).2) as (-> & -> & -> & -> & ->).
  destruct (run_op_shape o w) as (? & ? & ? & ? & ? & _). done.
Qed.

Lemma fmap_id_map (f : Tasks.row -> Tasks.row) (l : list Tasks.row) :
  (forall r, Tasks.id (f r) = Tasks.id r) -> Tasks.id <$> map f l = Tasks.id <$> l.
Proof.
  intros H. induction l as [|r l IH]; simpl; [done|]. f_equal; [apply H|exact IH].
Qed.

Lemma filter_keeps_NoDup_ids (p : Tasks.row -> bool) (l : list Tasks.row) :
  NoDup (Tasks.id <$> l) -> NoDup (Tasks.id <$> List.filter p l).
Proof.
  induction l as [|x l IH]; simpl; [done|]. intros Hnd.
  apply NoDup_cons in Hnd as [Hx Hnd].
  destruct (p x); simpl; [|by apply IH].
  apply NoDup_cons. split; [|by apply IH].
  intros Hin. apply Hx. apply list_elem_of_fmap in Hin as (y & E & Hy).
  apply list_elem_of_fmap. exists y. split; [done|].
  apply list_elem_of_In, filter_In in Hy as [Hy _]. by apply list_elem_of_In.
Qed.

Lemma run_op_keeps_ids_fresh o w :
  task_ids_fresh (db w) -> task_ids_fresh (db (run_op o w).2).
Proof.
  intros [Hnd Hle].
  destruct (run_op_shape o w)
    as (_ & _ & _ & _ & _ & [(r & Ht & Hid & Hseq)|[(f & Ht & Hf & Hseq)|(p & Ht & Hseq)]]);
    unfold task_ids_fresh; rewrite Ht, Hseq.
  - split.
    + rewrite fmap_app. apply NoDup_app. split; [done|].
      split; [|apply NoDup_singleton].
      intros i Hi Hi'. apply list_elem_of_singleton in Hi'. subst i.
      apply list_elem_of_fmap in Hi as (r' & E & Hr'). apply Hle in Hr'. lia.
    + intros r' Hr'. apply elem_of_app in Hr' as [Hr'|Hr'].
      * apply Hle in Hr'. lia.
      * apply list_elem_of_singleton in Hr'. subst r'. lia.
  - split.
    + by rewrite (fmap_id_map f _ Hf).
    + intros r' Hr'. apply list_elem_of_fmap in Hr' as (r & -> & Hr).
      rewrite Hf. by apply Hle.
  - split.
    + by apply filter_keeps_NoDup_ids.
    + intros r' Hr'. apply list_elem_of_In, filter_In in Hr' as [Hr' _].
      by apply Hle, list_elem_of_In.
Qed.

(** The internal task id is store-unique and never reused: if the ids of
    the task rows are distinct and none exceeds the AUTOINCREMENT counter,
    the same holds after any sequence of add, create, update, complete and
    delete calls, deletions included. *)
Theorem task_ids_stay_unique (ops : list op) (w : world) :
  task_ids_fresh (db w) -> task_ids_fresh (db (run_ops ops w)).
Proof.
  revert w. induction ops as [|o ops IH]; intros w H; [done|].
  rewrite run_ops_cons. by apply IH, run_op_keeps_ids_fresh.
Qed.

Lemma task_ids_stay_unique_witness :
  task_ids_fresh
    (db (run_ops [AddTask "s1" "t1" PNone PNone; DeleteTask "t1";
                  AddTask "s1" "t1" PNone PNone; CompleteTask "s1" "t1"]
           (initial_world empty_store sample_clock))).
Proof.
  apply (task_ids_stay_unique
           [AddTask "s1" "t1" PNone PNone; DeleteTask "t1";
            AddTask "s1" "t1" PNone PNone; CompleteTask "s1" "t1"]
           (initial_world empty_store sample_clock)).
  split; [constructor|]. intros r Hr. by apply not_elem_of_nil in Hr.
Defined.

(** ** [delete_task] and [complete_task] *)

Lemma filter_filter_same (p : Tasks.row -> bool) (l : list Tasks.row) :
  List.filter p (List.filter p l) = List.filter p l.
Proof.
  induction l as [|r l IH]; simpl; [done|].
  destruct (p r) eqn:E; simpl; [|done]. by rewrite E, IH.
Qed.

Lemma filter_all (p : Tasks.row -> bool) (l : list Tasks.row) :
  (forall r, r ∈ l -> p r = true) -> List.filter p l = l.
Proof.
  induction l as [|r l IH]; intros H; simpl; [done|].
  rewrite (H r) by by left. f_equal. apply IH. intros; apply H; by right.
Qed.

(** [delete_task] never raises and prints its 'Deleted task' line whether
    or not a row was deleted.  Afterwards no row holds the task id, so the
    coordinator's existence check finds nothing; deleting again changes
    nothing more; and when no row held the task id the database is as it
    was.  Both the [TaskSync] and the dashboard method. *)
Theorem delete_task_idempotent (tid : string) (w : world) :
  let w1 := (TaskSync.delete_task tid w).2 in
  TaskSync.delete_task tid w
  = (Ok tt, mkWorld (delete_tasks tid (db w)) (clock w) (reads w)
              (out w ++ [MsgDeletedTask tid]))
  /\ WebProjectState.delete_task tid w
     = (Ok tt, mkWorld (delete_tasks tid (db w)) (clock w) (reads w) (out w))
  /\ select_task_id tid (db w1) = None
  /\ db (TaskSync.delete_task tid w1).2 = db w1
  /\ ((forall r, r ∈ tasks (db w) -> Tasks.task_id r <> tid) -> db w1 = db w).
Proof.
  intros w1. split; [done|]. split; [done|].
  change (db w1) with (delete_tasks tid (db w)).
  split; [|split].
  - unfold select_task_id, delete_tasks, with_tasks. cbn [tasks].
    assert (E : List.filter (fun r => String.eqb (Tasks.task_id r) tid)
                  (List.filter (fun r => negb (String.eqb (Tasks.task_id r) tid))
                     (tasks (db w))) = []).
    { induction (tasks (db w)) as [|r l IH]; simpl; [done|].
      destruct (String.eqb (Tasks.task_id r) tid) eqn:Er; simpl; [done|].
      by rewrite Er. }
    by rewrite E.
  - change (db (TaskSync.delete_task tid w1).2)
      with (delete_tasks tid (delete_tasks tid (db w))).
    unfold delete_tasks, with_tasks. cbn. by rewrite filter_filter_same.
  - intros Hno. unfold delete_tasks. rewrite filter_all; [apply with_tasks_same|].
    intros r Hr. destruct (String.eqb (Tasks.task_id r) tid) eqn:E; [|done].
    apply String.eqb_eq in E. by destruct (Hno r Hr).
Qed.

(** [complete_task] is scoped to the handle's session: it never raises, and
    a row that holds another task id, or belongs to another session, is left
    exactly as it was; a row it does touch keeps its id, session, task id,
    owner, description and creation time. *)
Theorem complete_task_scoped_to_session (sid tid : string) (w : world) :
  (ProjectState.complete_task sid tid w).1 = Ok tt
  /\ Forall2 (fun r r' =>
                (Tasks.task_id r <> tid \/ Tasks.session_id r <> sid -> r' = r)
                /\ Tasks.id r' = Tasks.id r /\ Tasks.session_id r' = Tasks.session_id r
                /\ Tasks.task_id r' = Tasks.task_id r
                /\ Tasks.agent_role r' = Tasks.agent_role r
                /\ Tasks.description r' = Tasks.description r
                /\ Tasks.created_at r' = Tasks.created_at r)
       (tasks (db w)) (tasks (db_after (ProjectState.complete_task sid tid) w)).
Proof.
  split; [done|]. unfold db_after. rewrite complete_task_tasks.
  apply Forall2_map_intro. intros r.
  destruct (String.eqb (Tasks.task_id r) tid) eqn:E1;
    destruct (String.eqb (Tasks.session_id r) sid) eqn:E2; simpl; try done.
  apply String.eqb_eq in E1, E2. split; [|done]. by intros [?|?].
Qed.

(** ** The reconcilers: exceptions and counts *)

(** Neither reconciler lets an exception out, whatever the payload and the
    state of the store: a value that is not a dict, or a field value SQLite
    cannot bind, ends the loop inside the function. *)
Theorem reconcilers_never_raise (task_sync : bool) (payload_ : payload) (w : world) :
  (CoordinatorAgent.sync_tasks_from_json task_sync payload_ w).1 = Ok tt
  /\ (SyncTasksToDb.sync_from_json payload_ w).1 = Ok tt.
Proof.
  unfold CoordinatorAgent.sync_tasks_from_json, SyncTasksToDb.sync_from_json, try_except,
    mbind, M_bind, mret, M_ret, print.
  destruct task_sync, payload_ as [| |l]; cbn [negb fst]; try done.
  - split.
    + destruct (CoordinatorAgent.sync_loop l 0 w) as [[c|e] w']; [|done].
      by destruct (0 <? c)%nat.
    + by destruct (SyncTasksToDb.sync_loop l 0 w) as [[c|e] w'].
  - split; [done|]. by destruct (SyncTasksToDb.sync_loop l 0 w) as [[c|e] w'].
Qed.

Lemma coordinator_sync_loop_other pre post n w :
  CoordinatorAgent.sync_loop (pre ++ JOther :: post) n w
  = match CoordinatorAgent.sync_loop pre n w with
    | (Ok _, w') => (Raise AttributeError, w')
    | (Raise e, w') => (Raise e, w')
    end.
Proof.
  revert n w. induction pre as [|x pre IH]; intros n w; [done|].
  cbn [app CoordinatorAgent.sync_loop]. unfold mbind, M_bind.
  destruct (CoordinatorAgent.sync_item x w) as [[a|e] w']; [apply IH|done].
Qed.

Lemma standalone_sync_loop_other pre post n w :
  SyncTasksToDb.sync_loop (pre ++ JOther :: post) n w
  = match SyncTasksToDb.sync_loop pre n w with
    | (Ok _, w') => (Raise AttributeError, w')
    | (Raise e, w') => (Raise e, w')
    end.
Proof.
  revert n w. induction pre as [|x pre IH]; intros n w; [done|].
  cbn [app SyncTasksToDb.sync_loop]. unfold mbind, M_bind.
  destruct (SyncTasksToDb.sync_item x w) as [[a|e] w']; [apply IH|done].
Qed.

(** A list element that is not a dict stops the loop where it stands: the
    records before it are reconciled as if the list ended there, the records
    after it are never looked at, and the last line printed is the error
    line instead of the count. *)
Theorem non_dict_item_stops_the_loop (pre post : list item) (w : world) :
  let coord l := CoordinatorAgent.sync_tasks_from_json true (JList l) in
  let alone l := SyncTasksToDb.sync_from_json (JList l) in
  db_after (coord (pre ++ JOther :: post)) w = db_after (coord pre) w
  /\ db_after (alone (pre ++ JOther :: post)) w = db_after (alone pre) w
  /\ last (out (coord (pre ++ JOther :: post) w).2) = Some MsgError
  /\ last (out (alone (pre ++ JOther :: post) w).2) = Some MsgError.
Proof.
  intros coord alone.
  unfold coord, alone, db_after, CoordinatorAgent.sync_tasks_from_json,
    SyncTasksToDb.sync_from_json, try_except, mbind, M_bind, mret, M_ret, print.
  cbn [negb]. rewrite coordinator_sync_loop_other, standalone_sync_loop_other.
  destruct (CoordinatorAgent.sync_loop pre 0 w) as [[c|e] w1];
    destruct (SyncTasksToDb.sync_loop pre 0 w) as [[c'|e'] w1']; cbn;
    rewrite ?last_snoc; repeat split; try done; by destruct c.
Qed.

Lemma status_step_length tid status w :
  length (tasks (db ((if negb (py_eq_str status "pending")
                      then TaskSync.update_task tid status PNone PNone
                      else mret tt) w).2))
  = length (tasks (db w)).
Proof.
  destruct (negb (py_eq_str status "pending")); [|done].
  by rewrite update_task_tasks, length_map.
Qed.

Lemma create_task_length tid descr owner w w' :
  TaskSync.create_task tid descr owner PNone w = (Ok tt, w') ->
  length (tasks (db w')) = S (length (tasks (db w))).
Proof.
  intros H. destruct (create_task_all_or_nothing tid descr owner PNone w) as [Hbad Hok].
  destruct ((negb (truthy PNone) || bindable PNone) && bindable owner && bindable descr).
  - destruct (Hok eq_refl) as (_ & r & E & _). unfold db_after in E. rewrite H in E.
    cbn [snd] in E. rewrite E. cbn. rewrite length_app. simpl. lia.
  - destruct (Hbad eq_refl) as [E _]. by rewrite H in E.
Qed.

Lemma coordinator_sync_task_length task w n w' :
  CoordinatorAgent.sync_task task w = (Ok n, w') ->
  length (tasks (db w')) = (length (tasks (db w)) + n)%nat.
Proof.
  unfold CoordinatorAgent.sync_task.
  destruct (truthy _); [|intros [= <- <-]; lia].
  unfold mbind, M_bind, query.
  destruct (select_task_id _ (db w)) as [i|].
  - unfold mret at 1, M_ret at 1.
    pose proof (status_step_length
                  (py_str (py_or (dict_get task "id") (dict_get task "task_id")))
                  (dict_get_default task "status" (PStr "pending")) w) as Hlen.
    match type of Hlen with length (tasks (db (?x).2)) = _ =>
      destruct x as [[u|e] w2] end; [|done].
    intros [= <- <-]. cbn [snd] in Hlen. lia.
  - destruct (TaskSync.create_task _ _ _ PNone w) as [[[]|e] w1] eqn:Hc; [|done].
    apply create_task_length in Hc. unfold mret at 1, M_ret at 1.
    pose proof (status_step_length
                  (py_str (py_or (dict_get task "id") (dict_get task "task_id")))
                  (dict_get_default task "status" (PStr "pending")) w1) as Hlen.
    match type of Hlen with length (tasks (db (?x).2)) = _ =>
      destruct x as [[u|e] w2] end; [|done].
    intros [= <- <-]. cbn [snd] in Hlen. lia.
Qed.

Lemma coordinator_sync_loop_length l c w c' w' :
  CoordinatorAgent.sync_loop l c w = (Ok c', w') ->
  (c <= c')%nat
  /\ length (tasks (db w')) = (length (tasks (db w)) + (c' - c))%nat.
Proof.
  revert c w. induction l as [|t l IH]; intros c w; simpl.
  - intros [= <- <-]. split; [done|lia].
  - unfold mbind, M_bind. destruct t as [task|]; simpl; [|done].
    destruct (CoordinatorAgent.sync_task task w) as [[n|e] w1] eqn:Ht; [|done].
    intros H. apply IH in H as [Hle Hlen].
    apply coordinator_sync_task_length in Ht. split; lia.
Qed.

(** The count the coordinator's reconciler reports is the number of rows it
    created: when the loop ends with [synced_count = c], the tasks table has
    exactly [c] rows more than before (status updates add none), and the
    'Synced c new tasks' line is printed exactly when [c] is positive. *)
Theorem coordinator_count_is_rows_created (l : list item) (w : world) (c : nat) (w' : world) :
  CoordinatorAgent.sync_loop l 0 w = (Ok c, w') ->
  length (tasks (db w')) = (length (tasks (db w)) + c)%nat
  /\ CoordinatorAgent.sync_tasks_from_json true (JList l) w
     = (Ok tt, mkWorld (db w') (clock w') (reads w')
                 (out w' ++ if (0 <? c)%nat then [MsgSyncedNew c] else [])).
Proof.
  intros H. split.
  - apply coordinator_sync_loop_length in H as [_ ->]. lia.
  - unfold CoordinatorAgent.sync_tasks_from_json, try_except, mbind, M_bind. cbn [negb].
    rewrite H. destruct (0 <? c)%nat; [done|].
    destruct w'. cbn. by rewrite app_nil_r.
Qed.

Lemma coordinator_count_is_rows_created_witness :
  length (tasks (db (CoordinatorAgent.sync_loop
                       [JObject record_t1_completed; JObject record_t1_plain;
                        JObject record_t2]
                       0 (initial_world sample_store sample_clock)).2))
  = (length (tasks (db (initial_world sample_store sample_clock))) + 2)%nat.
Proof.
  apply (coordinator_count_is_rows_created
           [JObject record_t1_completed; JObject record_t1_plain; JObject record_t2]
           (initial_world sample_store sample_clock) 2).
  by vm_compute.
Defined.

Lemma standalone_sync_task_length task w n w' :
  SyncTasksToDb.sync_task task w = (Ok n, w') ->
  n = (if truthy (record_id task) then 1 else 0)%nat
  /\ length (tasks (db w')) = (length (tasks (db w)) + n)%nat.
Proof.
  unfold SyncTasksToDb.sync_task. fold (record_id task).
  destruct (truthy (record_id task)); [|intros [= <- <-]; split; [done|lia]].
  unfold mbind, M_bind.
  destruct (TaskSync.create_task _ _ _ PNone w) as [[[]|e] w1] eqn:Hc; [|done].
  apply create_task_length in Hc.
  pose proof (status_step_length (py_str (record_id task))
                (dict_get_default task "status" (PStr "pending")) w1) as Hlen.
  match type of Hlen with length (tasks (db (?x).2)) = _ =>
    destruct x as [[u|e] w2] end; [|done].
  unfold mret, M_ret. intros [= <- <-]. cbn [snd] in Hlen. split; [done|lia].
Qed.

Lemma standalone_sync_loop_length l c w c' w' :
  SyncTasksToDb.sync_loop l c w = (Ok c', w') ->
  c' = (c + length (List.filter identified l))%nat
  /\ length (tasks (db w')) = (length (tasks (db w)) + (c' - c))%nat.
Proof.
  revert c w. induction l as [|t l IH]; intros c w; simpl.
  - intros [= <- <-]. split; lia.
  - unfold mbind, M_bind. destruct t as [task|]; simpl; [|done].
    destruct (SyncTasksToDb.sync_task task w) as [[n|e] w1] eqn:Ht; [|done].
    intros H. apply IH in H as [Hc Hlen].
    apply standalone_sync_task_length in Ht as [Hn Ht].
    destruct (truthy (record_id task)); simpl; subst n; split; lia.
Qed.

(** The standalone script counts records, not new tasks: when its loop ends
    normally the count is the number of records with a truthy identifier,
    each of them has appended one row whether or not the task existed, and
    the 'Synced c tasks' line is printed even for zero. *)
Theorem standalone_count_is_identified_records
    (l : list item) (w : world) (c : nat) (w' : world) :
  SyncTasksToDb.sync_loop l 0 w = (Ok c, w') ->
  c = length (List.filter identified l)
  /\ length (tasks (db w')) = (length (tasks (db w)) + c)%nat
  /\ SyncTasksToDb.sync_from_json (JList l) w
     = (Ok tt, mkWorld (db w') (clock w') (reads w') (out w' ++ [MsgSyncedTotal c])).
Proof.
  intros H. pose proof (standalone_sync_loop_length _ _ _ _ _ H) as [Hc Hlen].
  split; [lia|]. split; [lia|].
  unfold SyncTasksToDb.sync_from_json, try_except, mbind, M_bind. by rewrite H.
Qed.

Lemma standalone_count_is_identified_records_witness :
  2%nat = length (List.filter identified
                    [JObject record_t1_completed; JObject record_without_identifier;
                     JObject record_t1_plain]).
Proof.
  apply (standalone_count_is_identified_records
           [JObject record_t1_completed; JObject record_without_identifier;
            JObject record_t1_plain]
           (initial_world sample_store sample_clock) 2
           (SyncTasksToDb.sync_loop
              [JObject record_t1_completed; JObject record_without_identifier;
               JObject record_t1_plain] 0 (initial_world sample_store sample_clock)).2).
  by vm_compute.
Defined.

(** A record whose status is 'pending', or that has none, never touches a
    task that exists: the coordinator's loop turn on it changes nothing at
    all, whatever status, owner or description the stored task has. *)
Theorem pending_record_leaves_existing_task (task : gmap string pyval) (w : world) :
  truthy (record_id task) = true ->
  py_eq_str (record_status task) "pending" = true ->
  (exists r, r ∈ tasks (db w) /\ Tasks.task_id r = py_str (record_id task)) ->
  CoordinatorAgent.sync_task task w = (Ok 0%nat, w).
Proof.
  intros Hid Hst (r & Hr & Hrid).
  unfold CoordinatorAgent.sync_task. fold (record_id task) (record_status task).
  rewrite Hid, Hst. unfold mbind, M_bind, query.
  destruct (select_task_id (py_str (record_id task)) (db w)) as [i|] eqn:E; [done|].
  by destruct (select_task_id_none _ _ E r Hr).
Qed.

Lemma pending_record_leaves_existing_task_witness :
  CoordinatorAgent.sync_task {[ "id" := PStr "task-001"; "status" := PStr "pending" ]}
    (initial_world sample_store sample_clock)
  = (Ok 0%nat, initial_world sample_store sample_clock).
Proof.
  apply (pending_record_leaves_existing_task
           {[ "id" := PStr "task-001"; "status" := PStr "pending" ]}
           (initial_world sample_store sample_clock)); [reflexivity|reflexivity|].
  exists sample_task. split; [by left|reflexivity].
Defined.

(** ** [complete_task] and the completed count *)

Lemma count_completed_fold_acc sid (l : list Tasks.row) (n : Z) :
  fold_left
    (fun n r =>
       if String.eqb (Tasks.session_id r) sid && sql_eq (Tasks.status r) "completed"
       then n + 1 else n) l n
  = n + fold_left
          (fun n r =>
             if String.eqb (Tasks.session_id r) sid && sql_eq (Tasks.status r) "completed"
             then n + 1 else n) l 0.
Proof.
  revert n. induction l as [|r l IH]; intros n; simpl; [lia|].
  destruct (_ && _).
  - rewrite (IH (n + 1)), (IH (0 + 1)). lia.
  - rewrite (IH n), (IH 0). lia.
Qed.

(** [complete_task] and [get_completed_tasks_count] together: completing a
    task raises the completed count of the handle's session by the number of
    rows of that session and task id that were not completed yet (so by
    zero for an unknown task id, and by zero when repeated), and leaves the
    count of every other session as it was. *)
Theorem complete_task_raises_completed_count (sid tid : string) (w : world) :
  let w1 := (ProjectState.complete_task sid tid w).2 in
  count_completed sid (db w1) = count_completed sid (db w) + Z.of_nat (open_rows sid tid (db w))
  /\ open_rows sid tid (db w1) = 0%nat
  /\ (forall sid', sid' <> sid -> count_completed sid' (db w1) = count_completed sid' (db w)).
Proof.
  intros w1.
  assert (Ht : tasks (db w1)
    = map (fun r =>
             if String.eqb (Tasks.task_id r) tid && String.eqb (Tasks.session_id r) sid
             then apply_sets [(ColStatus, Some "completed");
                              (ColCompletedAt, Some (isoformat (clock w (reads w))))] r
             else r) (tasks (db w))) by apply complete_task_tasks.
  unfold count_completed, open_rows. rewrite Ht. clear Ht w1.
  induction (tasks (db w)) as [|r l (IH1 & IH2 & IH3)]; [done|].
  cbn [map fold_left List.filter length].
  split; [|split].
  - rewrite count_completed_fold_acc, (count_completed_fold_acc sid l), IH1.
    destruct (String.eqb (Tasks.task_id r) tid) eqn:E1;
      destruct (String.eqb (Tasks.session_id r) sid) eqn:E2; cbn; rewrite ?E2; cbn;
      destruct (sql_eq (Tasks.status r) "completed"); cbn; lia.
  - destruct (String.eqb (Tasks.task_id r) tid) eqn:E1;
      destruct (String.eqb (Tasks.session_id r) sid) eqn:E2; cbn; rewrite ?E1, ?E2; cbn;
      done.
  - intros sid' Hne.
    rewrite count_completed_fold_acc, (count_completed_fold_acc sid' l), (IH3 sid' Hne).
    destruct (String.eqb (Tasks.task_id r) tid) eqn:E1;
      destruct (String.eqb (Tasks.session_id r) sid) eqn:E2; cbn; try done.
    apply String.eqb_eq in E2.
    destruct (String.eqb (Tasks.session_id r) sid') eqn:E3; [|done].
    apply String.eqb_eq in E3. congruence.
Qed.
